(** * RAPIDS on AWS: the [aws/rapids_intro.ipynb] notebook

    The notebook is a straight-line Python script, cut into cells, that drives
    cuDF, cuML and scikit-learn.  Every computation is delegated to those
    libraries; what the notebook itself decides is which names are bound,
    which library operation is requested with which arguments, in which
    order, and what is printed.

    The development embeds the cells as programs of a small state-and-error
    monad over the interpreter's namespace.  The libraries (and the Python
    object protocol behind operators, attribute access and [str]) are an
    arbitrary [runtime]: a function from the requested operation, its
    arguments and the state of the outside world to a returned value or a
    raised exception, and a new world.  Statements about the notebook are
    proved for every runtime. *)

From Stdlib Require Import ZArith NArith List String Ascii Bool Lia DecimalString.
From Stdlib Require Import Floats.SpecFloat.
Import ListNotations.

Local Open Scope string_scope.
Local Open Scope list_scope.
Set Warnings "-register-all".

(** ** Python values *)

(** Built-in scalars, strings and tuples are structural; every other object
    (module, function, dataframe, series, array, fitted model) is an opaque
    reference [VObj h] whose meaning lives in the runtime's world. *)
Inductive value : Type :=
| VNone
| VBool (b : bool)
| VInt (z : Z)
| VFloat (f : spec_float)
| VStr (s : string)
| VTuple (vs : list value)
| VObj (h : N).

(** Exceptions: the ones a library operation raises carry the exception
    object; the others are raised by the interpreter itself. *)
Inductive exn : Type :=
| ExRaised (e : value)
| NameError (x : string)
| ValueError (msg : string)
| TypeError (msg : string).

Inductive result (A : Type) : Type :=
| Ok (a : A)
| Raise (e : exn).
Arguments Ok {A} a.
Arguments Raise {A} e.

(** Operations requested from the runtime.  For [OCall f] the argument list
    is the callee (the value bound to the name [f]) followed by the
    positional arguments; for [OMethod], [OGetAttr], [OGetItem], [OSetItem]
    and [OImportFrom] it starts with the receiver. *)
Inductive op : Type :=
| OImport (module : string)
| OImportFrom (name : string)
| OCall (f : string)
| OMethod (name : string)
| OGetAttr (name : string)
| OGetItem
| OSetItem
| OTrueDiv
| OMul
| OStr
| OTimeReport.

Definition kwargs : Type := list (string * value).

(** What an execution leaves behind, in order. *)
Inductive event : Type :=
| ELoad (x : string) (v : value)
| EStore (x : string) (v : value)
| EOp (o : op) (args : list value) (kw : kwargs) (r : value + value)
| EPrint (s : string).

(** The notebook-level view of an event: values erased.  The implicit
    [str] conversions done by [print] and by [%s] are not steps of the
    script. *)
Inductive step : Type :=
| SLoad (x : string)
| SStore (x : string)
| SOp (o : op)
| SPrint.

Definition op_steps (o : op) : list step :=
  match o with
  | OStr => []
  | _ => [SOp o]
  end.

Definition step_of (e : event) : list step :=
  match e with
  | ELoad x _ => [SLoad x]
  | EStore x _ => [SStore x]
  | EOp o _ _ _ => op_steps o
  | EPrint _ => [SPrint]
  end.

Definition steps (tr : list event) : list step := flat_map step_of tr.

Fixpoint lookup (x : string) (d : list (string * value)) : option value :=
  match d with
  | [] => None
  | (k, v) :: d' => if String.eqb x k then Some v else lookup x d'
  end.

Definition nl : string := String (ascii_of_nat 10) EmptyString.

(** Text written to the standard output by a trace. *)
Fixpoint stdout (tr : list event) : string :=
  match tr with
  | [] => ""
  | EPrint s :: tr' => s ++ stdout tr'
  | _ :: tr' => stdout tr'
  end.

(** ** The kernel monad *)

Section Kernel.

Context {World : Type}.

Definition runtime : Type :=
  op -> list value -> kwargs -> World -> (value + value) * World.

Variable rt : runtime.

(** [ns] is the kernel's global namespace (most recent binding first). *)
Record state : Type := mkState {
  ns : list (string * value);
  world : World;
  trace : list event
}.

Definition M (A : Type) : Type := state -> result A * state.

Definition ret {A} (a : A) : M A := fun s => (Ok a, s).

Definition raise {A} (e : exn) : M A := fun s => (Raise e, s).

Definition bind {A B} (m : M A) (k : A -> M B) : M B :=
  fun s =>
    match m s with
    | (Ok a, s') => k a s'
    | (Raise e, s') => (Raise e, s')
    end.

(** Python's [try: m  except Exception as e: h e].  The notebook never
    uses it; it is here to say what "handling" would be. *)
Definition try_except {A} (m : M A) (h : exn -> M A) : M A :=
  fun s =>
    match m s with
    | (Ok a, s') => (Ok a, s')
    | (Raise e, s') => h e s'
    end.

Definition log (e : event) (s : state) : state :=
  {| ns := ns s; world := world s; trace := trace s ++ [e] |}.

Definition emit (e : event) : M unit := fun s => (Ok tt, log e s).

(** Name lookup. *)
Definition load (x : string) : M value :=
  fun s =>
    match lookup x (ns s) with
    | Some v => (Ok v, log (ELoad x v) s)
    | None => (Raise (NameError x), s)
    end.

(** Name binding. *)
Definition store (x : string) (v : value) : M unit :=
  fun s =>
    (Ok tt,
     {| ns := (x, v) :: ns s; world := world s;
        trace := trace s ++ [EStore x v] |}).

(** A library operation: the runtime answers with a value or raises. *)
Definition invoke (o : op) (args : list value) (kw : kwargs) : M value :=
  fun s =>
    let '(r, w') := rt o args kw (world s) in
    let s' := {| ns := ns s; world := w';
                 trace := trace s ++ [EOp o args kw r] |} in
    match r with
    | inl v => (Ok v, s')
    | inr e => (Raise (ExRaised e), s')
    end.

End Kernel.

Arguments state : clear implicits.
Arguments M : clear implicits.
Arguments runtime : clear implicits.

Declare Scope kernel_scope.
Delimit Scope kernel_scope with kernel.

Notation "x <- m ;; k" := (bind m (fun x => k))
  (at level 61, m at next level, right associativity) : kernel_scope.
Notation "' p <- m ;; k" := (bind m (fun p => k))
  (at level 61, p pattern, m at next level, right associativity) : kernel_scope.
Notation "m ;; k" := (bind m (fun _ => k))
  (at level 61, right associativity) : kernel_scope.

Local Open Scope kernel_scope.

(** ** Built-ins used by the cells *)

Section Builtins.

Context {World : Type}.
Variable rt : runtime World.

(** [str(v)]: the identity on strings, the object's [__str__] otherwise. *)
Definition py_str (v : value) : M World string :=
  match v with
  | VStr s => ret s
  | _ =>
      r <- invoke rt OStr [v] [] ;;
      match r with
      | VStr s => ret s
      | _ => raise (TypeError "__str__ returned non-string")
      end
  end.

(** [print(v)] writes [str(v)] and a newline. *)
Definition print (v : value) : M World unit :=
  s <- py_str v ;;
  emit (EPrint (s ++ nl)).

(** Splits a format string at its first [%s]. *)
Fixpoint split_percent_s (fmt : string) : option (string * string) :=
  match fmt with
  | EmptyString => None
  | String "%" (String "s" rest) => Some (EmptyString, rest)
  | String c rest =>
      match split_percent_s rest with
      | Some (pre, post) => Some (String c pre, post)
      | None => None
      end
  end.

(** [fmt % v] for a format string with a single [%s] conversion: a
    one-element tuple is unpacked, any other tuple has the wrong number of
    arguments, anything else is the argument itself. *)
Definition percent (fmt : string) (v : value) : M World value :=
  match split_percent_s fmt with
  | None => raise (TypeError "not all arguments converted during string formatting")
  | Some (pre, post) =>
      match v with
      | VTuple [a] => s <- py_str a ;; ret (VStr (pre ++ s ++ post))
      | VTuple [] => raise (TypeError "not enough arguments for format string")
      | VTuple _ => raise (TypeError "not all arguments converted during string formatting")
      | _ => s <- py_str v ;; ret (VStr (pre ++ s ++ post))
      end
  end.

(** [a, b = v] and [a, b, c, d = v].  Only built-in tuples are iterable
    here: the libraries return their multiple results as tuples. *)
Definition unpack2 (v : value) : M World (value * value) :=
  match v with
  | VTuple [a; b] => ret (a, b)
  | VTuple _ => raise (ValueError "wrong number of values to unpack (expected 2)")
  | _ => raise (TypeError "cannot unpack non-iterable object")
  end.

Definition unpack4 (v : value) : M World (value * value * value * value) :=
  match v with
  | VTuple [a; b; c; d] => ret (a, b, c, d)
  | VTuple _ => raise (ValueError "wrong number of values to unpack (expected 4)")
  | _ => raise (TypeError "cannot unpack non-iterable object")
  end.

(** The [%%time] cell magic: run the body, then print the timing report
    the kernel produces.  An exception of the body passes through. *)
Definition timed {A} (body : M World A) : M World A :=
  a <- body ;;
  r <- invoke rt OTimeReport [] [] ;;
  print r ;;
  ret a.

End Builtins.

(** ** The cells of the notebook, top to bottom *)

(** The literal [0.2] as a binary64 number. *)
Definition float_0_2 : spec_float := S754_finite false 7205759403792794 (-55).

Section Cells.

Context {World : Type}.
Variable rt : runtime World.

(** Cell [e9b9cba9], the cuDF example: read the CSV, add the
    [tip_percentage] column, print its average by party size. *)
Definition cudf_example : M World unit :=
  m <- invoke rt (OImport "cudf") [] [] ;;
  store "cudf" m ;;
  store "url" (VStr "https://github.com/plotly/datasets/raw/master/tips.csv") ;;
  cudf <- load "cudf" ;;
  url <- load "url" ;;
  df <- invoke rt (OMethod "read_csv") [cudf; url] [] ;;
  store "tips_df" df ;;
  d1 <- load "tips_df" ;;
  tip <- invoke rt OGetItem [d1; VStr "tip"] [] ;;
  d2 <- load "tips_df" ;;
  total_bill <- invoke rt OGetItem [d2; VStr "total_bill"] [] ;;
  q <- invoke rt OTrueDiv [tip; total_bill] [] ;;
  pct <- invoke rt OMul [q; VInt 100] [] ;;
  d3 <- load "tips_df" ;;
  invoke rt OSetItem [d3; VStr "tip_percentage"; pct] [] ;;
  d4 <- load "tips_df" ;;
  g <- invoke rt (OMethod "groupby") [d4; VStr "size"] [] ;;
  c <- invoke rt (OGetAttr "tip_percentage") [g] [] ;;
  avg <- invoke rt (OMethod "mean") [c] [] ;;
  print rt avg.

(** Cell [c6e564b5]: imports and parameters.  The sample count is the one
    knob the notebook tells its reader to edit, so it is an argument; the
    cell as committed is [define_parameters (2 ^ 19)]. *)
Definition define_parameters (n_samples : Z) : M World unit :=
  cuml <- invoke rt (OImport "cuml") [] [] ;;
  f1 <- invoke rt (OImportFrom "make_regression") [cuml] [] ;;
  store "make_regression" f1 ;;
  f2 <- invoke rt (OImportFrom "train_test_split") [cuml] [] ;;
  store "train_test_split" f2 ;;
  lm <- invoke rt (OImport "cuml.linear_model") [] [] ;;
  f3 <- invoke rt (OImportFrom "LinearRegression") [lm] [] ;;
  store "cuLinearRegression" f3 ;;
  mr <- invoke rt (OImport "cuml.metrics.regression") [] [] ;;
  f4 <- invoke rt (OImportFrom "r2_score") [mr] [] ;;
  store "r2_score" f4 ;;
  sk <- invoke rt (OImport "sklearn.linear_model") [] [] ;;
  f5 <- invoke rt (OImportFrom "LinearRegression") [sk] [] ;;
  store "skLinearRegression" f5 ;;
  store "n_samples" (VInt n_samples) ;;
  store "n_features" (VInt 399) ;;
  store "random_state" (VInt 23).

(** Cell [7f1a649c]: generate the data, wrap it in cuDF, split it. *)
Definition generate_and_split : M World unit :=
  timed rt (
    f <- load "make_regression" ;;
    n <- load "n_samples" ;;
    p <- load "n_features" ;;
    r <- load "random_state" ;;
    t <- invoke rt (OCall "make_regression") [f]
           [("n_samples", n); ("n_features", p); ("random_state", r)] ;;
    '(X, y) <- unpack2 t ;;
    store "X" X ;;
    store "y" y ;;
    cudf <- load "cudf" ;;
    X <- load "X" ;;
    Xdf <- invoke rt (OMethod "DataFrame") [cudf; X] [] ;;
    store "X" Xdf ;;
    cudf <- load "cudf" ;;
    y <- load "y" ;;
    ydf <- invoke rt (OMethod "DataFrame") [cudf; y] [] ;;
    y0 <- invoke rt OGetItem [ydf; VInt 0] [] ;;
    store "y" y0 ;;
    f <- load "train_test_split" ;;
    X <- load "X" ;;
    y <- load "y" ;;
    r <- load "random_state" ;;
    t <- invoke rt (OCall "train_test_split") [f; X; y]
           [("test_size", VFloat float_0_2); ("random_state", r)] ;;
    '(X_cudf, X_cudf_test, y_cudf, y_cudf_test) <- unpack4 t ;;
    store "X_cudf" X_cudf ;;
    store "X_cudf_test" X_cudf_test ;;
    store "y_cudf" y_cudf ;;
    store "y_cudf_test" y_cudf_test).

(** Cell [b792261e]: copy the four pieces from GPU memory to host memory. *)
Definition copy_to_host : M World unit :=
  a <- load "X_cudf" ;;
  a' <- invoke rt (OMethod "to_pandas") [a] [] ;;
  store "X_train" a' ;;
  b <- load "X_cudf_test" ;;
  b' <- invoke rt (OMethod "to_pandas") [b] [] ;;
  store "X_test" b' ;;
  c <- load "y_cudf" ;;
  c' <- invoke rt (OMethod "to_pandas") [c] [] ;;
  store "y_train" c' ;;
  d <- load "y_cudf_test" ;;
  d' <- invoke rt (OMethod "to_pandas") [d] [] ;;
  store "y_test" d'.

(** Cell [196d7135]: build and fit the scikit-learn model.  The value of
    the closing expression (the fitted model, echoed by the front end) is
    dropped. *)
Definition sk_fit : M World unit :=
  timed rt (
    f <- load "skLinearRegression" ;;
    m <- invoke rt (OCall "skLinearRegression") [f]
           [("fit_intercept", VBool true); ("normalize", VBool true);
            ("n_jobs", VInt (-1))] ;;
    store "ols_sk" m ;;
    m <- load "ols_sk" ;;
    X <- load "X_train" ;;
    y <- load "y_train" ;;
    invoke rt (OMethod "fit") [m; X; y] [] ;;
    ret tt).

(** Cell [bf319f1f]. *)
Definition sk_predict : M World unit :=
  timed rt (
    m <- load "ols_sk" ;;
    X <- load "X_test" ;;
    p <- invoke rt (OMethod "predict") [m; X] [] ;;
    store "predict_sk" p).

(** Cell [eb18356d]. *)
Definition sk_score : M World unit :=
  timed rt (
    f <- load "r2_score" ;;
    y <- load "y_cudf_test" ;;
    p <- load "predict_sk" ;;
    r <- invoke rt (OCall "r2_score") [f; y; p] [] ;;
    store "r2_score_sk" r).

(** Cell [12b4f5c1]: build and fit the cuML model. *)
Definition cuml_fit : M World unit :=
  timed rt (
    f <- load "cuLinearRegression" ;;
    m <- invoke rt (OCall "cuLinearRegression") [f]
           [("fit_intercept", VBool true); ("normalize", VBool true);
            ("algorithm", VStr "eig")] ;;
    store "ols_cuml" m ;;
    m <- load "ols_cuml" ;;
    X <- load "X_cudf" ;;
    y <- load "y_cudf" ;;
    invoke rt (OMethod "fit") [m; X; y] [] ;;
    ret tt).

(** Cell [d1b6ba1d]. *)
Definition cuml_predict : M World unit :=
  timed rt (
    m <- load "ols_cuml" ;;
    X <- load "X_cudf_test" ;;
    p <- invoke rt (OMethod "predict") [m; X] [] ;;
    store "predict_cuml" p).

(** Cell [17d77677]. *)
Definition cuml_score : M World unit :=
  timed rt (
    f <- load "r2_score" ;;
    y <- load "y_cudf_test" ;;
    p <- load "predict_cuml" ;;
    r <- invoke rt (OCall "r2_score") [f; y; p] [] ;;
    store "r2_score_cuml" r).

(** Cell [5f1e77ab]: compare results. *)
Definition compare_results : M World unit :=
  a <- load "r2_score_sk" ;;
  l1 <- percent rt "R^2 score (SKL):  %s" a ;;
  print rt l1 ;;
  b <- load "r2_score_cuml" ;;
  l2 <- percent rt "R^2 score (cuML): %s" b ;;
  print rt l2.

(** The linear-regression workflow (source lines 89 to 239) and the whole
    notebook, cells run in order. *)
Definition workflow (n_samples : Z) : M World unit :=
  define_parameters n_samples ;;
  generate_and_split ;;
  copy_to_host ;;
  sk_fit ;; sk_predict ;; sk_score ;;
  cuml_fit ;; cuml_predict ;; cuml_score ;;
  compare_results.

Definition notebook (n_samples : Z) : M World unit :=
  cudf_example ;; workflow n_samples.

(** A fresh kernel. *)
Definition fresh (w : World) : state World :=
  {| ns := []; world := w; trace := [] |}.

Definition run (n_samples : Z) (w : World) : result unit * state World :=
  notebook n_samples (fresh w).

End Cells.

(** ** The steps each cell performs, as written in the source *)

Definition time_report_steps : list step := [SOp OTimeReport; SPrint].

Definition cudf_example_steps : list step :=
  [SOp (OImport "cudf"); SStore "cudf"; SStore "url";
   SLoad "cudf"; SLoad "url"; SOp (OMethod "read_csv"); SStore "tips_df";
   SLoad "tips_df"; SOp OGetItem; SLoad "tips_df"; SOp OGetItem;
   SOp OTrueDiv; SOp OMul; SLoad "tips_df"; SOp OSetItem;
   SLoad "tips_df"; SOp (OMethod "groupby"); SOp (OGetAttr "tip_percentage");
   SOp (OMethod "mean"); SPrint].

Definition define_parameters_steps : list step :=
  [SOp (OImport "cuml");
   SOp (OImportFrom "make_regression"); SStore "make_regression";
   SOp (OImportFrom "train_test_split"); SStore "train_test_split";
   SOp (OImport "cuml.linear_model");
   SOp (OImportFrom "LinearRegression"); SStore "cuLinearRegression";
   SOp (OImport "cuml.metrics.regression");
   SOp (OImportFrom "r2_score"); SStore "r2_score";
   SOp (OImport "sklearn.linear_model");
   SOp (OImportFrom "LinearRegression"); SStore "skLinearRegression";
   SStore "n_samples"; SStore "n_features"; SStore "random_state"].

Definition generate_steps : list step :=
  [SLoad "make_regression"; SLoad "n_samples"; SLoad "n_features";
   SLoad "random_state"; SOp (OCall "make_regression");
   SStore "X"; SStore "y";
   SLoad "cudf"; SLoad "X"; SOp (OMethod "DataFrame"); SStore "X";
   SLoad "cudf"; SLoad "y"; SOp (OMethod "DataFrame"); SOp OGetItem;
   SStore "y"].

Definition split_steps : list step :=
  [SLoad "train_test_split"; SLoad "X"; SLoad "y"; SLoad "random_state";
   SOp (OCall "train_test_split");
   SStore "X_cudf"; SStore "X_cudf_test"; SStore "y_cudf";
   SStore "y_cudf_test"].

Definition transfer_steps : list step :=
  [SLoad "X_cudf"; SOp (OMethod "to_pandas"); SStore "X_train";
   SLoad "X_cudf_test"; SOp (OMethod "to_pandas"); SStore "X_test";
   SLoad "y_cudf"; SOp (OMethod "to_pandas"); SStore "y_train";
   SLoad "y_cudf_test"; SOp (OMethod "to_pandas"); SStore "y_test"].

Definition sk_fit_steps : list step :=
  [SLoad "skLinearRegression"; SOp (OCall "skLinearRegression");
   SStore "ols_sk";
   SLoad "ols_sk"; SLoad "X_train"; SLoad "y_train"; SOp (OMethod "fit")]
  ++ time_report_steps.

Definition sk_predict_steps : list step :=
  [SLoad "ols_sk"; SLoad "X_test"; SOp (OMethod "predict");
   SStore "predict_sk"]
  ++ time_report_steps.

Definition sk_score_steps : list step :=
  [SLoad "r2_score"; SLoad "y_cudf_test"; SLoad "predict_sk";
   SOp (OCall "r2_score"); SStore "r2_score_sk"]
  ++ time_report_steps.

Definition host_steps : list step :=
  sk_fit_steps ++ sk_predict_steps ++ sk_score_steps.

Definition cuml_fit_steps : list step :=
  [SLoad "cuLinearRegression"; SOp (OCall "cuLinearRegression");
   SStore "ols_cuml";
   SLoad "ols_cuml"; SLoad "X_cudf"; SLoad "y_cudf"; SOp (OMethod "fit")]
  ++ time_report_steps.

Definition cuml_predict_steps : list step :=
  [SLoad "ols_cuml"; SLoad "X_cudf_test"; SOp (OMethod "predict");
   SStore "predict_cuml"]
  ++ time_report_steps.

Definition cuml_score_steps : list step :=
  [SLoad "r2_score"; SLoad "y_cudf_test"; SLoad "predict_cuml";
   SOp (OCall "r2_score"); SStore "r2_score_cuml"]
  ++ time_report_steps.

Definition device_steps : list step :=
  cuml_fit_steps ++ cuml_predict_steps ++ cuml_score_steps.

Definition compare_steps : list step :=
  [SLoad "r2_score_sk"; SPrint; SLoad "r2_score_cuml"; SPrint].

Definition workflow_steps : list step :=
  define_parameters_steps
  ++ (generate_steps ++ split_steps ++ time_report_steps)
  ++ transfer_steps
  ++ host_steps
  ++ device_steps
  ++ compare_steps.

Definition notebook_steps : list step :=
  cudf_example_steps ++ workflow_steps.

(** ** Reading a trace *)

Definition is_load_of (x : string) (e : event) : bool :=
  match e with
  | ELoad y _ => String.eqb x y
  | _ => false
  end.

(** The name [x] is read at least once. *)
Definition is_loaded (x : string) (tr : list event) : bool :=
  existsb (is_load_of x) tr.

(** The four host-memory copies made by [copy_to_host]. *)
Definition host_twins : list string := ["X_train"; "X_test"; "y_train"; "y_test"].

Definition all_twins_consumed (tr : list event) : bool :=
  forallb (fun x => is_loaded x tr) host_twins.

(** The events of [str(v) = t]: none for a string, one [__str__] call
    otherwise. *)
Definition str_log (v : value) (t : string) : list event :=
  match v with
  | VStr _ => []
  | _ => [EOp OStr [v] [] (inl (VStr t))]
  end.

(** What [%s] renders for the right operand [v] of [%]. *)
Definition fmt_arg (v : value) : value :=
  match v with
  | VTuple [a] => a
  | _ => v
  end.

(** Lines of a text (split at newlines) and substring test. *)
Fixpoint lines_from (cur : string) (s : string) : list string :=
  match s with
  | EmptyString => match cur with EmptyString => [] | _ => [cur] end
  | String c rest =>
      if Ascii.eqb c (ascii_of_nat 10) then cur :: lines_from EmptyString rest
      else lines_from (cur ++ String c EmptyString) rest
  end.

Definition lines (s : string) : list string := lines_from EmptyString s.

Definition contains (sub s : string) : bool :=
  match index 0 sub s with
  | Some _ => true
  | None => false
  end.

(** Some printed line shows both texts. *)
Definition line_with_both (a b : string) (text : string) : bool :=
  existsb (fun l => contains a l && contains b l) (lines text).

(** No operation of the trace raised. *)
Definition raised (e : event) : bool :=
  match e with
  | EOp _ _ _ (inr _) => true
  | _ => false
  end.

Definition quiet (tr : list event) : Prop := forallb (fun e => negb (raised e)) tr = true.

Definition is_store_of (x : string) (e : event) : bool :=
  match e with
  | EStore y _ => String.eqb x y
  | _ => false
  end.

(** The name [x] is bound at least once. *)
Definition is_stored (x : string) (tr : list event) : bool :=
  existsb (is_store_of x) tr.

(** The names a step sequence binds, in order. *)
Fixpoint stored_names (l : list step) : list string :=
  match l with
  | [] => []
  | SStore x :: l' => x :: stored_names l'
  | _ :: l' => stored_names l'
  end.

(** The same questions on the value-free view. *)
Definition loads (x : string) (l : list step) : bool :=
  existsb (fun st => match st with SLoad y => String.eqb x y | _ => false end) l.

Definition calls_to (f : string) (l : list step) : nat :=
  List.length (filter (fun st => match st with
                                 | SOp (OCall g) => String.eqb f g
                                 | _ => false
                                 end) l).

(** [str(v)] gave the text [t] in the trace. *)
Definition rendered (tr : list event) (v : value) (t : string) : Prop :=
  match v with
  | VStr s => t = s
  | _ => In (EOp OStr [v] [] (inl (VStr t))) tr
  end.

(** ** What a finished run looks like *)

Section Outcomes.

Context {World : Type}.

(** The transfer copies: every device piece is still bound, to the object
    that was handed to [to_pandas], next to its host copy; the device pieces
    feed the cuML fit afterwards; [X_train], [y_train] and [X_test] feed the
    scikit-learn fit and predict; [y_test] is bound and never read. *)
Definition copied_and_consumed (s : state World) : Prop :=
  exists X_cudf X_cudf_test y_cudf y_cudf_test X_train X_test y_train y_test
         ols_sk ols_cuml fit_sk fit_cuml predict_sk,
    lookup "X_cudf" (ns s) = Some X_cudf /\
    lookup "X_cudf_test" (ns s) = Some X_cudf_test /\
    lookup "y_cudf" (ns s) = Some y_cudf /\
    lookup "y_cudf_test" (ns s) = Some y_cudf_test /\
    lookup "X_train" (ns s) = Some X_train /\
    lookup "X_test" (ns s) = Some X_test /\
    lookup "y_train" (ns s) = Some y_train /\
    lookup "y_test" (ns s) = Some y_test /\
    lookup "ols_sk" (ns s) = Some ols_sk /\
    lookup "ols_cuml" (ns s) = Some ols_cuml /\
    lookup "predict_sk" (ns s) = Some predict_sk /\
    In (EOp (OMethod "to_pandas") [X_cudf] [] (inl X_train)) (trace s) /\
    In (EOp (OMethod "to_pandas") [X_cudf_test] [] (inl X_test)) (trace s) /\
    In (EOp (OMethod "to_pandas") [y_cudf] [] (inl y_train)) (trace s) /\
    In (EOp (OMethod "to_pandas") [y_cudf_test] [] (inl y_test)) (trace s) /\
    In (EOp (OMethod "fit") [ols_sk; X_train; y_train] [] (inl fit_sk)) (trace s) /\
    In (EOp (OMethod "predict") [ols_sk; X_test] [] (inl predict_sk)) (trace s) /\
    In (EOp (OMethod "fit") [ols_cuml; X_cudf; y_cudf] [] (inl fit_cuml)) (trace s) /\
    (exists before after,
        steps (trace s) = before ++ transfer_steps ++ after /\
        loads "X_train" after = true /\
        loads "y_train" after = true /\
        loads "X_test" after = true /\
        loads "X_cudf" after = true /\
        loads "y_cudf" after = true) /\
    is_loaded "y_test" (trace s) = false.

(** Both scores come from the one function imported from
    [cuml.metrics.regression], applied to the device-side labels
    [y_cudf_test]; the scikit-learn predictions, computed from the host copy
    [X_test], are scored against them; the host copy [y_test] of the labels
    is never read. *)
Definition scored_by_one_metric_on_device_labels (s : state World) : Prop :=
  exists module r2_score y_cudf_test y_test ols_sk X_test
         predict_sk predict_cuml r2_score_sk r2_score_cuml,
    lookup "r2_score" (ns s) = Some r2_score /\
    lookup "y_cudf_test" (ns s) = Some y_cudf_test /\
    lookup "y_test" (ns s) = Some y_test /\
    lookup "ols_sk" (ns s) = Some ols_sk /\
    lookup "X_test" (ns s) = Some X_test /\
    lookup "predict_sk" (ns s) = Some predict_sk /\
    lookup "predict_cuml" (ns s) = Some predict_cuml /\
    lookup "r2_score_sk" (ns s) = Some r2_score_sk /\
    lookup "r2_score_cuml" (ns s) = Some r2_score_cuml /\
    In (EOp (OImport "cuml.metrics.regression") [] [] (inl module)) (trace s) /\
    In (EOp (OImportFrom "r2_score") [module] [] (inl r2_score)) (trace s) /\
    In (EOp (OMethod "to_pandas") [y_cudf_test] [] (inl y_test)) (trace s) /\
    In (EOp (OMethod "predict") [ols_sk; X_test] [] (inl predict_sk)) (trace s) /\
    In (EOp (OCall "r2_score") [r2_score; y_cudf_test; predict_sk] []
          (inl r2_score_sk)) (trace s) /\
    In (EOp (OCall "r2_score") [r2_score; y_cudf_test; predict_cuml] []
          (inl r2_score_cuml)) (trace s) /\
    calls_to "r2_score" (steps (trace s)) = 2 /\
    is_loaded "y_test" (trace s) = false.

(** The output ends with two lines, one score on each. *)
Definition prints_two_score_lines (s : state World) : Prop :=
  exists r2_score_sk r2_score_cuml text_sk text_cuml before,
    lookup "r2_score_sk" (ns s) = Some r2_score_sk /\
    lookup "r2_score_cuml" (ns s) = Some r2_score_cuml /\
    rendered (trace s) (fmt_arg r2_score_sk) text_sk /\
    rendered (trace s) (fmt_arg r2_score_cuml) text_cuml /\
    stdout (trace s) =
      (before ++ ("R^2 score (SKL):  " ++ text_sk ++ nl)
              ++ ("R^2 score (cuML): " ++ text_cuml ++ nl))%string.

(** The trace of the cuDF example cell when it returns. *)
Definition tips_cell_trace (s : state World) : Prop :=
  exists cudf df tip total_bill q pct u g c avg t,
    trace s =
      [EOp (OImport "cudf") [] [] (inl cudf);
       EStore "cudf" cudf;
       EStore "url" (VStr "https://github.com/plotly/datasets/raw/master/tips.csv");
       ELoad "cudf" cudf;
       ELoad "url" (VStr "https://github.com/plotly/datasets/raw/master/tips.csv");
       EOp (OMethod "read_csv")
         [cudf; VStr "https://github.com/plotly/datasets/raw/master/tips.csv"]
         [] (inl df);
       EStore "tips_df" df;
       ELoad "tips_df" df;
       EOp OGetItem [df; VStr "tip"] [] (inl tip);
       ELoad "tips_df" df;
       EOp OGetItem [df; VStr "total_bill"] [] (inl total_bill);
       EOp OTrueDiv [tip; total_bill] [] (inl q);
       EOp OMul [q; VInt 100] [] (inl pct);
       ELoad "tips_df" df;
       EOp OSetItem [df; VStr "tip_percentage"; pct] [] (inl u);
       ELoad "tips_df" df;
       EOp (OMethod "groupby") [df; VStr "size"] [] (inl g);
       EOp (OGetAttr "tip_percentage") [g] [] (inl c);
       EOp (OMethod "mean") [c] [] (inl avg)]
      ++ str_log avg t ++ [EPrint (t ++ nl)].

(** The requests of the generation cell, for the sample count [n]. *)
Definition generation_requests (n : Z) (s : state World) : Prop :=
  exists X_cudf X_cudf_test y_cudf y_cudf_test X y
         make_regression train_test_split cudf X0 y0 ydf,
    lookup "X_cudf" (ns s) = Some X_cudf /\
    lookup "X_cudf_test" (ns s) = Some X_cudf_test /\
    lookup "y_cudf" (ns s) = Some y_cudf /\
    lookup "y_cudf_test" (ns s) = Some y_cudf_test /\
    lookup "X" (ns s) = Some X /\
    lookup "y" (ns s) = Some y /\
    lookup "make_regression" (ns s) = Some make_regression /\
    lookup "train_test_split" (ns s) = Some train_test_split /\
    lookup "cudf" (ns s) = Some cudf /\
    In (EOp (OCall "make_regression") [make_regression]
          [("n_samples", VInt n); ("n_features", VInt 399);
           ("random_state", VInt 23)]
          (inl (VTuple [X0; y0]))) (trace s) /\
    In (EOp (OMethod "DataFrame") [cudf; X0] [] (inl X)) (trace s) /\
    In (EOp (OMethod "DataFrame") [cudf; y0] [] (inl ydf)) (trace s) /\
    In (EOp OGetItem [ydf; VInt 0] [] (inl y)) (trace s) /\
    In (EOp (OCall "train_test_split") [train_test_split; X; y]
          [("test_size", VFloat float_0_2); ("random_state", VInt 23)]
          (inl (VTuple [X_cudf; X_cudf_test; y_cudf; y_cudf_test])))
       (trace s).

(** Both models work on the one split: the cuML model is fitted on the
    first and third piece the splitter returned and predicts on the second;
    the scikit-learn model is fitted on the host copies of the same two
    pieces and predicts on the host copy of the same second piece; both
    predictions are scored against the fourth piece.  Each model is the
    object its constructor returned: what [fit] returns is not what
    [predict] is called on. *)
Definition same_split_in_place (s : state World) : Prop :=
  exists ols_sk ols_cuml X_train X_test y_train predict_sk predict_cuml
         r2_score r2_score_sk r2_score_cuml
         splitter X y a b c d sk_class cu_class fit_sk fit_cuml,
    lookup "ols_sk" (ns s) = Some ols_sk /\
    lookup "ols_cuml" (ns s) = Some ols_cuml /\
    lookup "X_train" (ns s) = Some X_train /\
    lookup "X_test" (ns s) = Some X_test /\
    lookup "y_train" (ns s) = Some y_train /\
    lookup "predict_sk" (ns s) = Some predict_sk /\
    lookup "predict_cuml" (ns s) = Some predict_cuml /\
    lookup "r2_score" (ns s) = Some r2_score /\
    lookup "r2_score_sk" (ns s) = Some r2_score_sk /\
    lookup "r2_score_cuml" (ns s) = Some r2_score_cuml /\
    In (EOp (OCall "train_test_split") [splitter; X; y]
          [("test_size", VFloat float_0_2); ("random_state", VInt 23)]
          (inl (VTuple [a; b; c; d]))) (trace s) /\
    In (EOp (OMethod "to_pandas") [a] [] (inl X_train)) (trace s) /\
    In (EOp (OMethod "to_pandas") [b] [] (inl X_test)) (trace s) /\
    In (EOp (OMethod "to_pandas") [c] [] (inl y_train)) (trace s) /\
    In (EOp (OCall "skLinearRegression") [sk_class]
          [("fit_intercept", VBool true); ("normalize", VBool true);
           ("n_jobs", VInt (-1))]
          (inl ols_sk)) (trace s) /\
    In (EOp (OMethod "fit") [ols_sk; X_train; y_train] [] (inl fit_sk))
       (trace s) /\
    In (EOp (OMethod "predict") [ols_sk; X_test] [] (inl predict_sk))
       (trace s) /\
    In (EOp (OCall "cuLinearRegression") [cu_class]
          [("fit_intercept", VBool true); ("normalize", VBool true);
           ("algorithm", VStr "eig")]
          (inl ols_cuml)) (trace s) /\
    In (EOp (OMethod "fit") [ols_cuml; a; c] [] (inl fit_cuml)) (trace s) /\
    In (EOp (OMethod "predict") [ols_cuml; b] [] (inl predict_cuml))
       (trace s) /\
    In (EOp (OCall "r2_score") [r2_score; d; predict_sk] []
          (inl r2_score_sk)) (trace s) /\
    In (EOp (OCall "r2_score") [r2_score; d; predict_cuml] []
          (inl r2_score_cuml)) (trace s).

End Outcomes.

(** ** A stand-in runtime

    Every operation returns a fresh opaque object, the two multi-result
    functions return tuples of fresh objects, and [make_regression] raises
    when asked for more samples than the device holds.  It serves as a
    concrete kernel on which the statements below are evaluated. *)

Definition obj_repr (h : N) : string :=
  "<object " ++ NilZero.string_of_uint (N.to_uint h) ++ ">".

Definition stub_rt (capacity : Z) : runtime N :=
  fun o args kw w =>
    match o with
    | OCall f =>
        if String.eqb f "make_regression" then
          match lookup "n_samples" kw with
          | Some (VInt n) =>
              if Z.leb n capacity
              then (inl (VTuple [VObj w; VObj (w + 1)]), (w + 2)%N)
              else (inr (VStr "MemoryError"), w)
          | _ => (inr (VStr "TypeError"), w)
          end
        else if String.eqb f "train_test_split" then
          (inl (VTuple [VObj w; VObj (w + 1); VObj (w + 2); VObj (w + 3)]),
           (w + 4)%N)
        else (inl (VObj w), (w + 1)%N)
    | OStr =>
        match args with
        | [VObj h] => (inl (VStr (obj_repr h)), w)
        | _ => (inl (VStr "?"), w)
        end
    | OTimeReport => (inl (VStr "Wall time: 1 s"), w)
    | _ => (inl (VObj w), (w + 1)%N)
    end.

(** The notebook as committed, run on a device that holds [2 ^ 19]
    samples. *)
Definition stub_final : state N := snd (run (stub_rt (2 ^ 19)) (2 ^ 19) 0%N).

(** ** The arithmetic of the [tip_percentage] column

    [tips_df['tip']/tips_df['total_bill']*100] on float64 columns: IEEE 754
    binary64 division and multiplication, row by row. *)

Definition f64_div : spec_float -> spec_float -> spec_float := SFdiv 53 1024.
Definition f64_mul : spec_float -> spec_float -> spec_float := SFmul 53 1024.

(** [100.0] *)
Definition float_100 : spec_float := S754_finite false 7036874417766400 (-46).

Definition tip_percentage_row (tip total_bill : spec_float) : spec_float :=
  f64_mul (f64_div tip total_bill) float_100.

Definition tip_percentage (tip total_bill : list spec_float) : list spec_float :=
  map (fun '(t, b) => tip_percentage_row t b) (combine tip total_bill).

(** A number: neither an infinity nor NaN. *)
Definition is_number (f : spec_float) : bool :=
  match f with
  | S754_zero _ | S754_finite _ _ _ => true
  | S754_infinity _ | S754_nan => false
  end.

Definition is_zero (f : spec_float) : bool :=
  match f with
  | S754_zero _ => true
  | _ => false
  end.

Definition is_nan (f : spec_float) : bool :=
  match f with
  | S754_nan => true
  | _ => false
  end.

Definition is_inf (f : spec_float) : bool :=
  match f with
  | S754_infinity _ => true
  | _ => false
  end.

(** The sign bit, [true] for negative; NaN carries none. *)
Definition sign_bit (f : spec_float) : bool :=
  match f with
  | S754_zero s | S754_infinity s | S754_finite s _ _ => s
  | S754_nan => false
  end.

(** ** Specifications of monadic programs *)

Section Specs.

Context {World : Type}.
Variable rt : runtime World.

(** How [str(v) = t] came about, from world [w] to world [w']. *)
Definition str_call (v : value) (t : string) (w w' : World) : Prop :=
  match v with
  | VStr s => t = s /\ w' = w
  | _ => rt OStr [v] [] w = (inl (VStr t), w')
  end.

(** [follows m l]: whatever the state, the steps [m] performs are a prefix
    of [l], and all of [l] when [m] returns. *)
Definition follows {A} (m : M World A) (l : list step) : Prop :=
  forall s, exists (evs : list event) (rest : list step),
    trace (snd (m s)) = trace s ++ evs /\
    l = steps evs ++ rest /\
    (forall a, fst (m s) = Ok a -> rest = []).

(** [unhandled m]: [m] returns only if no operation raised, and an
    operation that raises is the last thing [m] does, its exception being
    the outcome of [m]. *)
Definition unhandled {A} (m : M World A) : Prop :=
  forall s, exists evs : list event,
    trace (snd (m s)) = trace s ++ evs /\
    match fst (m s) with
    | Ok _ => quiet evs
    | Raise e =>
        (exists evs0 o args kw x,
            evs = evs0 ++ [EOp o args kw (inr x)] /\ quiet evs0 /\
            e = ExRaised x)
        \/ (quiet evs /\ forall x, e <> ExRaised x)
    end.

(** [wp m Q s]: if [m] returns from [s], its result and final state
    satisfy [Q]. *)
Definition wp {A} (m : M World A) (Q : A -> state World -> Prop)
    (s : state World) : Prop :=
  match m s with
  | (Ok a, s') => Q a s'
  | (Raise _, _) => True
  end.

(** [wpe m Q E s]: the same, and if [m] raises from [s] its exception
    satisfies [E]. *)
Definition wpe {A} (m : M World A) (Q : A -> state World -> Prop)
    (E : exn -> Prop) (s : state World) : Prop :=
  match m s with
  | (Ok a, s') => Q a s'
  | (Raise e, _) => E e
  end.

End Specs.

(** Every exception but an unbound name. *)
Definition benign (e : exn) : Prop :=
  match e with
  | NameError _ => False
  | _ => True
  end.

(** What the workflow can end with when the cuDF example was not run
    first. *)
Definition missing_cudf (e : exn) : Prop :=
  match e with
  | NameError x => x = "cudf"
  | _ => True
  end.

(** * Proofs *)

Lemma steps_app (a b : list event) : steps (a ++ b) = steps a ++ steps b.
Proof. unfold steps. now rewrite flat_map_app. Qed.

Lemma quiet_app (a b : list event) : quiet a -> quiet b -> quiet (a ++ b).
Proof. unfold quiet. rewrite forallb_app. now intros -> ->. Qed.

Lemma quiet_nil : quiet [].
Proof. reflexivity. Qed.

Section FollowsRules.

Context {World : Type}.
Variable rt : runtime World.

Lemma follows_ret {A} (a : A) : follows (World := World) (ret a) [].
Proof.
  intros s. exists [], []. cbn. rewrite app_nil_r. auto.
Qed.

Lemma follows_raise {A} (e : exn) (l : list step) :
  follows (World := World) (raise (A := A) e) l.
Proof.
  intros s. exists [], l. cbn. rewrite app_nil_r.
  repeat split; auto. discriminate.
Qed.

Lemma follows_bind {A B} (m : M World A) (k : A -> M World B) l1 l2 :
  follows m l1 -> (forall a, follows (k a) l2) ->
  follows (bind m k) (l1 ++ l2).
Proof.
  intros Hm Hk s. unfold bind.
  destruct (Hm s) as (e1 & r1 & Ht1 & -> & Hr1).
  destruct (m s) as [[a | e] s1]; cbn in *.
  - rewrite (Hr1 a eq_refl), app_nil_r.
    destruct (Hk a s1) as (e2 & r2 & Ht2 & -> & Hr2).
    exists (e1 ++ e2), r2. rewrite Ht2, Ht1, steps_app, !app_assoc. auto.
  - exists e1, (r1 ++ l2). rewrite app_assoc.
    repeat split; auto. discriminate.
Qed.

Lemma follows_eq {A} (m : M World A) l l' :
  follows m l -> l = l' -> follows m l'.
Proof. now intros H <-. Qed.

Lemma follows_load x : follows (World := World) (load x) [SLoad x].
Proof.
  intros s. unfold load. destruct (lookup x (ns s)) as [v |]; cbn.
  - exists [ELoad x v], []. auto.
  - exists [], [SLoad x]. rewrite app_nil_r.
    repeat split; auto. discriminate.
Qed.

Lemma follows_store x v : follows (World := World) (store x v) [SStore x].
Proof. intros s. exists [EStore x v], []. cbn. auto. Qed.

Lemma follows_emit e : follows (World := World) (emit e) (step_of e).
Proof.
  intros s. exists [e], []. cbn. rewrite !app_nil_r. auto.
Qed.

Lemma follows_invoke o args kw : follows (invoke rt o args kw) (op_steps o).
Proof.
  intros s. unfold invoke.
  destruct (rt o args kw (world s)) as [r w'].
  exists [EOp o args kw r], []. cbn. rewrite !app_nil_r.
  destruct r; cbn; auto.
Qed.

Lemma follows_py_str v : follows (py_str rt v) [].
Proof.
  assert (H : forall r : value,
             follows (World := World)
               (match r with
                | VStr s => ret s
                | _ => raise (TypeError "__str__ returned non-string")
                end) []).
  { intros r. destruct r; first [apply follows_ret | apply follows_raise]. }
  destruct v; cbn [py_str]; try apply follows_ret;
    apply (follows_bind _ _ [] []); auto; apply (follows_invoke OStr).
Qed.

Lemma follows_print v : follows (print rt v) [SPrint].
Proof.
  unfold print. apply (follows_bind _ _ [] [SPrint]).
  - apply follows_py_str.
  - intros t. apply (follows_emit (EPrint _)).
Qed.

Lemma follows_percent fmt v : follows (percent rt fmt v) [].
Proof.
  unfold percent. destruct (split_percent_s fmt) as [[pre post] |].
  2: apply follows_raise.
  assert (H : forall a, follows (s <- py_str rt a ;; ret (VStr (pre ++ s ++ post))) []).
  { intros a. apply (follows_bind _ _ [] []).
    - apply follows_py_str.
    - intros t. apply follows_ret. }
  destruct v; try apply H.
  destruct vs as [| a [| b vs]]; try apply follows_raise. apply H.
Qed.

Lemma follows_unpack2 v : follows (World := World) (unpack2 v) [].
Proof.
  destruct v; try apply follows_raise.
  destruct vs as [| a [| b [| c vs]]];
    first [apply follows_ret | apply follows_raise].
Qed.

Lemma follows_unpack4 v : follows (World := World) (unpack4 v) [].
Proof.
  destruct v; try apply follows_raise.
  destruct vs as [| a [| b [| c [| d [| e vs]]]]];
    first [apply follows_ret | apply follows_raise].
Qed.

Lemma follows_timed {A} (body : M World A) l :
  follows body l -> follows (timed rt body) (l ++ time_report_steps).
Proof.
  intros H. unfold timed. apply follows_bind; auto.
  intros a. apply (follows_bind _ _ [SOp OTimeReport] [SPrint]).
  - apply (follows_invoke OTimeReport).
  - intros r. apply (follows_bind _ _ [SPrint] []).
    + apply follows_print.
    + intros _. apply follows_ret.
Qed.

End FollowsRules.

(** Walks through a cell, one statement at a time. *)
Ltac follow :=
  repeat first
    [ apply follows_ret
    | apply follows_load
    | apply follows_store
    | apply follows_invoke
    | apply follows_print
    | apply follows_percent
    | apply follows_unpack2
    | apply follows_unpack4
    | eapply follows_timed
    | match goal with
      | |- follows (let '(_, _) := ?p in _) _ => destruct p
      end
    | eapply follows_bind; [ | intros ] ].

Ltac follow_cell := eapply follows_eq; [ follow | reflexivity ].

Section NotebookSteps.

Context {World : Type}.
Variable rt : runtime World.

Lemma cudf_example_follows : follows (cudf_example rt) cudf_example_steps.
Proof. unfold cudf_example. follow_cell. Qed.

Lemma define_parameters_follows n :
  follows (define_parameters rt n) define_parameters_steps.
Proof. unfold define_parameters. follow_cell. Qed.

Lemma generate_and_split_follows :
  follows (generate_and_split rt)
    (generate_steps ++ split_steps ++ time_report_steps).
Proof. unfold generate_and_split. follow_cell. Qed.

Lemma copy_to_host_follows : follows (copy_to_host rt) transfer_steps.
Proof. unfold copy_to_host. follow_cell. Qed.

Lemma sk_fit_follows : follows (sk_fit rt) sk_fit_steps.
Proof. unfold sk_fit. follow_cell. Qed.

Lemma sk_predict_follows : follows (sk_predict rt) sk_predict_steps.
Proof. unfold sk_predict. follow_cell. Qed.

Lemma sk_score_follows : follows (sk_score rt) sk_score_steps.
Proof. unfold sk_score. follow_cell. Qed.

Lemma cuml_fit_follows : follows (cuml_fit rt) cuml_fit_steps.
Proof. unfold cuml_fit. follow_cell. Qed.

Lemma cuml_predict_follows : follows (cuml_predict rt) cuml_predict_steps.
Proof. unfold cuml_predict. follow_cell. Qed.

Lemma cuml_score_follows : follows (cuml_score rt) cuml_score_steps.
Proof. unfold cuml_score. follow_cell. Qed.

Lemma compare_results_follows : follows (compare_results rt) compare_steps.
Proof. unfold compare_results. follow_cell. Qed.

Lemma workflow_follows n : follows (workflow rt n) workflow_steps.
Proof.
  unfold workflow. eapply follows_eq.
  - repeat (eapply follows_bind; [ | intros _ ]).
    + apply define_parameters_follows.
    + apply generate_and_split_follows.
    + apply copy_to_host_follows.
    + apply sk_fit_follows.
    + apply sk_predict_follows.
    + apply sk_score_follows.
    + apply cuml_fit_follows.
    + apply cuml_predict_follows.
    + apply cuml_score_follows.
    + apply compare_results_follows.
  - reflexivity.
Qed.

Lemma notebook_follows n : follows (notebook rt n) notebook_steps.
Proof.
  unfold notebook, notebook_steps.
  apply follows_bind; [apply cudf_example_follows | intros _].
  apply workflow_follows.
Qed.

(** Every run performs a prefix of [notebook_steps]; a run that returns
    performs all of them. *)
Lemma run_steps n w :
  exists rest,
    notebook_steps = steps (trace (snd (run rt n w))) ++ rest /\
    (fst (run rt n w) = Ok tt -> rest = []).
Proof.
  destruct (notebook_follows n (fresh w)) as (evs & rest & Ht & Hl & Hr).
  exists rest. unfold run. rewrite Ht. cbn. split; [exact Hl | apply Hr].
Qed.

Lemma run_steps_complete n w s' :
  run rt n w = (Ok tt, s') -> steps (trace s') = notebook_steps.
Proof.
  intros H. destruct (run_steps n w) as (rest & Hl & Hr).
  rewrite H in *. cbn in *. rewrite (Hr eq_refl), app_nil_r in Hl. auto.
Qed.

End NotebookSteps.

Section UnhandledRules.

Context {World : Type}.
Variable rt : runtime World.

Lemma unhandled_ret {A} (a : A) : unhandled (World := World) (ret a).
Proof.
  intros s. exists []. cbn. rewrite app_nil_r. split; [auto | apply quiet_nil].
Qed.

Lemma unhandled_raise_type {A} msg :
  unhandled (World := World) (raise (A := A) (TypeError msg)).
Proof.
  intros s. exists []. cbn. rewrite app_nil_r. split; auto.
  right. split; [apply quiet_nil | discriminate].
Qed.

Lemma unhandled_raise_value {A} msg :
  unhandled (World := World) (raise (A := A) (ValueError msg)).
Proof.
  intros s. exists []. cbn. rewrite app_nil_r. split; auto.
  right. split; [apply quiet_nil | discriminate].
Qed.

Lemma unhandled_bind {A B} (m : M World A) (k : A -> M World B) :
  unhandled m -> (forall a, unhandled (k a)) -> unhandled (bind m k).
Proof.
  intros Hm Hk s. unfold bind.
  destruct (Hm s) as (e1 & Ht1 & H1).
  destruct (m s) as [[a | e] s1]; cbn in *.
  - destruct (Hk a s1) as (e2 & Ht2 & H2).
    exists (e1 ++ e2). rewrite Ht2, Ht1, app_assoc. split; auto.
    destruct (fst (k a s1)) as [b | e].
    + now apply quiet_app.
    + destruct H2 as [(e0 & o & args & kw & x & -> & Hq & ->) | [Hq Hne]].
      * left. exists (e1 ++ e0), o, args, kw, x.
        rewrite app_assoc. repeat split; auto. now apply quiet_app.
      * right. split; auto. now apply quiet_app.
  - exists e1. split; auto.
Qed.

Lemma unhandled_load x : unhandled (World := World) (load x).
Proof.
  intros s. unfold load. destruct (lookup x (ns s)) as [v |]; cbn.
  - exists [ELoad x v]. split; auto. reflexivity.
  - exists []. rewrite app_nil_r. split; auto.
    right. split; [apply quiet_nil | discriminate].
Qed.

Lemma unhandled_store x v : unhandled (World := World) (store x v).
Proof. intros s. exists [EStore x v]. cbn. split; auto. reflexivity. Qed.

Lemma unhandled_print_event t : unhandled (World := World) (emit (EPrint t)).
Proof. intros s. exists [EPrint t]. cbn. split; auto. reflexivity. Qed.

Lemma unhandled_invoke o args kw : unhandled (invoke rt o args kw).
Proof.
  intros s. unfold invoke.
  destruct (rt o args kw (world s)) as [[v | x] w']; cbn.
  - exists [EOp o args kw (inl v)]. split; auto. reflexivity.
  - exists [EOp o args kw (inr x)]. split; auto.
    left. exists [], o, args, kw, x. repeat split.
Qed.

Lemma unhandled_py_str v : unhandled (py_str rt v).
Proof.
  assert (H : forall r : value,
             unhandled (World := World)
               (match r with
                | VStr s => ret s
                | _ => raise (TypeError "__str__ returned non-string")
                end)).
  { intros r. destruct r; first [apply unhandled_ret | apply unhandled_raise_type]. }
  destruct v; cbn [py_str]; try apply unhandled_ret;
    apply unhandled_bind; auto; apply unhandled_invoke.
Qed.

Lemma unhandled_print v : unhandled (print rt v).
Proof.
  unfold print. apply unhandled_bind.
  - apply unhandled_py_str.
  - intros t. apply unhandled_print_event.
Qed.

Lemma unhandled_percent fmt v : unhandled (percent rt fmt v).
Proof.
  unfold percent. destruct (split_percent_s fmt) as [[pre post] |].
  2: apply unhandled_raise_type.
  assert (H : forall a, unhandled (s <- py_str rt a ;; ret (VStr (pre ++ s ++ post)))).
  { intros a. apply unhandled_bind.
    - apply unhandled_py_str.
    - intros t. apply unhandled_ret. }
  destruct v; try apply H.
  destruct vs as [| a [| b vs]]; try apply unhandled_raise_type. apply H.
Qed.

Lemma unhandled_unpack2 v : unhandled (World := World) (unpack2 v).
Proof.
  destruct v; try apply unhandled_raise_type.
  destruct vs as [| a [| b [| c vs]]];
    first [apply unhandled_ret | apply unhandled_raise_value].
Qed.

Lemma unhandled_unpack4 v : unhandled (World := World) (unpack4 v).
Proof.
  destruct v; try apply unhandled_raise_type.
  destruct vs as [| a [| b [| c [| d [| e vs]]]]];
    first [apply unhandled_ret | apply unhandled_raise_value].
Qed.

Lemma unhandled_timed {A} (body : M World A) :
  unhandled body -> unhandled (timed rt body).
Proof.
  intros H. unfold timed. apply unhandled_bind; auto.
  intros a. apply unhandled_bind; [apply unhandled_invoke | intros r].
  apply unhandled_bind; [apply unhandled_print | intros _].
  apply unhandled_ret.
Qed.

End UnhandledRules.

Create HintDb unhandled_db.
#[export] Hint Resolve unhandled_ret unhandled_load unhandled_store
  unhandled_invoke unhandled_print unhandled_percent unhandled_unpack2
  unhandled_unpack4 : unhandled_db.

Ltac no_handler :=
  repeat first
    [ solve [auto with unhandled_db]
    | apply unhandled_timed
    | match goal with
      | |- unhandled (let '(_, _) := ?p in _) => destruct p
      end
    | apply unhandled_bind; [ | intros ] ].

Section NotebookUnhandled.

Context {World : Type}.
Variable rt : runtime World.

Lemma notebook_unhandled n : unhandled (notebook rt n).
Proof.
  unfold notebook, workflow, cudf_example, define_parameters,
    generate_and_split, copy_to_host, sk_fit, sk_predict, sk_score,
    cuml_fit, cuml_predict, cuml_score, compare_results.
  no_handler.
Qed.

(** A handler is what [unhandled] excludes: swallowing the exception of a
    failing operation lets the program return after an operation raised. *)
Lemma try_except_is_handling (o : op) (x : value) (w : World) :
  (forall args kw w0, rt o args kw w0 = (inr x, w0)) ->
  ~ unhandled (try_except (invoke rt o [] []) (fun _ => ret VNone)).
Proof.
  intros Hrt Hu. destruct (Hu (fresh w)) as (evs & Ht & Hq).
  unfold try_except, invoke in *. cbn in *. rewrite Hrt in *. cbn in *.
  subst evs. discriminate Hq.
Qed.

End NotebookUnhandled.

(** ** Runs that return: inversion, one statement at a time *)

Lemma string_app_assoc (a b c : string) : ((a ++ b) ++ c = a ++ (b ++ c))%string.
Proof. induction a as [| ch a IH]; cbn; [reflexivity | now rewrite IH]. Qed.

Lemma string_app_nil_r (a : string) : (a ++ "" = a)%string.
Proof. induction a as [| ch a IH]; cbn; [reflexivity | now rewrite IH]. Qed.

Lemma stdout_app (a b : list event) :
  stdout (a ++ b) = (stdout a ++ stdout b)%string.
Proof.
  induction a as [| e a IH]; cbn; [reflexivity |].
  destruct e; auto. now rewrite IH, string_app_assoc.
Qed.

Lemma stdout_str_log v t : stdout (str_log v t) = "".
Proof. destruct v; reflexivity. Qed.

Section Inversion.

Context {World : Type}.
Variable rt : runtime World.

Lemma bind_ok {A B} (m : M World A) (k : A -> M World B) s b s' :
  bind m k s = (Ok b, s') ->
  exists a s1, m s = (Ok a, s1) /\ k a s1 = (Ok b, s').
Proof.
  unfold bind. destruct (m s) as [[a | e] s1]; [eauto | discriminate].
Qed.

Lemma ret_ok {A} (a b : A) (s s' : state World) :
  ret a s = (Ok b, s') -> b = a /\ s' = s.
Proof. unfold ret. intros H. now inversion H. Qed.

Lemma invoke_ok o args kw s v s' :
  invoke rt o args kw s = (Ok v, s') ->
  exists w',
    rt o args kw (world s) = (inl v, w') /\
    s' = mkState (ns s) w' (trace s ++ [EOp o args kw (inl v)]).
Proof.
  unfold invoke. destruct (rt o args kw (world s)) as [[r | x] w'];
    intros H; inversion H; eauto.
Qed.

Lemma py_str_ok v s t s' :
  py_str rt v s = (Ok t, s') ->
  exists w',
    str_call rt v t (world s) w' /\
    s' = mkState (ns s) w' (trace s ++ str_log v t).
Proof.
  assert (G : forall v0, (forall s0, v0 <> VStr s0) ->
     (r <- invoke rt OStr [v0] [] ;;
      match r with
      | VStr s0 => ret s0
      | _ => raise (TypeError "__str__ returned non-string")
      end) s = (Ok t, s') ->
     exists w',
       rt OStr [v0] [] (world s) = (inl (VStr t), w') /\
       s' = mkState (ns s) w' (trace s ++ [EOp OStr [v0] [] (inl (VStr t))])).
  { intros v0 _ H. apply bind_ok in H. destruct H as (r & s1 & H1 & H2).
    apply invoke_ok in H1. destruct H1 as (w' & Hrt & ->).
    destruct r; try discriminate H2. apply ret_ok in H2.
    destruct H2 as [-> ->]. eauto. }
  destruct v; cbn [py_str str_call str_log];
    try (intros H; apply G in H; [exact H | discriminate]).
  intros H. apply ret_ok in H. destruct H as [-> ->].
  exists (world s). rewrite app_nil_r. destruct s; auto.
Qed.

Lemma print_ok v s u s' :
  print rt v s = (Ok u, s') ->
  exists t w',
    str_call rt v t (world s) w' /\
    s' = mkState (ns s) w' (trace s ++ str_log v t ++ [EPrint (t ++ nl)]).
Proof.
  unfold print. intros H. apply bind_ok in H.
  destruct H as (t & s1 & H1 & H2).
  apply py_str_ok in H1. destruct H1 as (w' & Hc & ->).
  unfold emit, log in H2. inversion H2. cbn.
  exists t, w'. rewrite <- app_assoc. auto.
Qed.

Lemma percent_ok fmt v s r s' :
  percent rt fmt v s = (Ok r, s') ->
  exists pre post t w',
    split_percent_s fmt = Some (pre, post) /\
    r = VStr (pre ++ t ++ post) /\
    str_call rt (fmt_arg v) t (world s) w' /\
    s' = mkState (ns s) w' (trace s ++ str_log (fmt_arg v) t).
Proof.
  unfold percent. destruct (split_percent_s fmt) as [[pre post] |];
    [| discriminate].
  assert (G : forall a,
     (t <- py_str rt a ;; ret (VStr (pre ++ t ++ post))) s = (Ok r, s') ->
     exists t w',
       r = VStr (pre ++ t ++ post) /\ str_call rt a t (world s) w' /\
       s' = mkState (ns s) w' (trace s ++ str_log a t)).
  { intros a H. apply bind_ok in H. destruct H as (t & s1 & H1 & H2).
    apply py_str_ok in H1. destruct H1 as (w' & Hc & ->).
    apply ret_ok in H2. destruct H2 as [-> ->]. eauto. }
  intros H. exists pre, post.
  assert (G' : exists t w',
     r = VStr (pre ++ t ++ post) /\ str_call rt (fmt_arg v) t (world s) w' /\
     s' = mkState (ns s) w' (trace s ++ str_log (fmt_arg v) t)).
  { destruct v; try (apply G; exact H).
    destruct vs as [| a [| b vs]]; try discriminate H. apply G. exact H. }
  destruct G' as (t & w' & ? & ? & ?). exists t, w'. auto.
Qed.

Lemma unpack2_ok v (s : state World) a b s' :
  unpack2 v s = (Ok (a, b), s') -> v = VTuple [a; b] /\ s' = s.
Proof.
  destruct v; try discriminate.
  destruct vs as [| x [| y [| z vs]]]; try discriminate.
  cbn. unfold ret. intros H. now inversion H.
Qed.

Lemma unpack4_ok v (s : state World) a b c d s' :
  unpack4 v s = (Ok (a, b, c, d), s') -> v = VTuple [a; b; c; d] /\ s' = s.
Proof.
  destruct v; try discriminate.
  destruct vs as [| x [| y [| z [| u [| q vs]]]]]; try discriminate.
  cbn. unfold ret. intros H. now inversion H.
Qed.

End Inversion.

(** ** Runs that return: forward, one statement at a time *)

Section WP.

Context {World : Type}.
Variable rt : runtime World.

Lemma wp_elim {A} (m : M World A) (P : state World -> Prop) s a s' :
  m s = (Ok a, s') -> wp m (fun _ s1 => P s1) s -> P s'.
Proof. unfold wp. now intros ->. Qed.

Lemma wp_ret {A} (a : A) (Q : A -> state World -> Prop) s :
  Q a s -> wp (ret a) Q s.
Proof. auto. Qed.

Lemma wp_bind {A B} (m : M World A) (k : A -> M World B) Q s :
  wp m (fun a s1 => wp (k a) Q s1) s -> wp (bind m k) Q s.
Proof. unfold wp, bind. destruct (m s) as [[a | e] s1]; auto. Qed.

Lemma wp_load x v N (W : World) T Q :
  lookup x N = Some v ->
  Q v (mkState N W (T ++ [ELoad x v])) ->
  wp (load x) Q (mkState N W T).
Proof. unfold wp, load, log. cbn. now intros ->. Qed.

Lemma wp_store x v N (W : World) T Q :
  Q tt (mkState ((x, v) :: N) W (T ++ [EStore x v])) ->
  wp (store x v) Q (mkState N W T).
Proof. auto. Qed.

Lemma wp_invoke o args kw N W T Q :
  (forall v w', rt o args kw W = (inl v, w') ->
     Q v (mkState N w' (T ++ [EOp o args kw (inl v)]))) ->
  wp (invoke rt o args kw) Q (mkState N W T).
Proof.
  unfold wp, invoke. cbn. intros H.
  destruct (rt o args kw W) as [[v | x] w']; auto.
Qed.

Lemma wp_py_str v N W T Q :
  (forall t w', str_call rt v t W w' ->
     Q t (mkState N w' (T ++ str_log v t))) ->
  wp (py_str rt v) Q (mkState N W T).
Proof.
  intros H. unfold wp.
  destruct (py_str rt v (mkState N W T)) as [[t | e] s'] eqn:E; auto.
  apply py_str_ok in E. destruct E as (w' & Hc & ->). auto.
Qed.

Lemma wp_print v N W T Q :
  (forall t w', str_call rt v t W w' ->
     Q tt (mkState N w' (T ++ str_log v t ++ [EPrint (t ++ nl)]))) ->
  wp (print rt v) Q (mkState N W T).
Proof.
  intros H. unfold wp.
  destruct (print rt v (mkState N W T)) as [[[] | e] s'] eqn:E; auto.
  apply print_ok in E. destruct E as (t & w' & Hc & ->). auto.
Qed.

Lemma wp_percent fmt v N W T Q :
  (forall pre post t w',
     split_percent_s fmt = Some (pre, post) ->
     str_call rt (fmt_arg v) t W w' ->
     Q (VStr (pre ++ t ++ post))
       (mkState N w' (T ++ str_log (fmt_arg v) t))) ->
  wp (percent rt fmt v) Q (mkState N W T).
Proof.
  intros H. unfold wp.
  destruct (percent rt fmt v (mkState N W T)) as [[r | e] s'] eqn:E; auto.
  apply percent_ok in E.
  destruct E as (pre & post & t & w' & Hs & -> & Hc & ->). auto.
Qed.

Lemma wp_unpack2 v Q (s : state World) :
  (forall a b, v = VTuple [a; b] -> Q (a, b) s) -> wp (unpack2 v) Q s.
Proof.
  intros H. unfold wp.
  destruct (unpack2 v s) as [[[a b] | e] s'] eqn:E; auto.
  apply unpack2_ok in E. destruct E as [-> ->]. auto.
Qed.

Lemma wp_unpack4 v Q (s : state World) :
  (forall a b c d, v = VTuple [a; b; c; d] -> Q (a, b, c, d) s) ->
  wp (unpack4 v) Q s.
Proof.
  intros H. unfold wp.
  destruct (unpack4 v s) as [[[[[a b] c] d] | e] s'] eqn:E; auto.
  apply unpack4_ok in E. destruct E as [-> ->]. auto.
Qed.

End WP.

Ltac wp_step :=
  lazymatch goal with
  | |- wp (bind _ _) _ _ => apply wp_bind
  | |- wp (ret _) _ _ => apply wp_ret
  | |- wp (load _) _ _ => eapply wp_load; [reflexivity |]
  | |- wp (store _ _) _ _ => apply wp_store
  | |- wp (invoke _ _ _ _) _ _ =>
      apply wp_invoke;
      let v := fresh "v" in let w := fresh "w" in let H := fresh "Hrt" in
      intros v w H
  | |- wp (print _ _) _ _ =>
      apply wp_print;
      let t := fresh "txt" in let w := fresh "w" in let H := fresh "Hstr" in
      intros t w H
  | |- wp (percent _ _ _) _ _ =>
      apply wp_percent;
      let pre := fresh "pre" in let post := fresh "post" in
      let t := fresh "txt" in let w := fresh "w" in
      let Hp := fresh "Hsplit" in let H := fresh "Hstr" in
      intros pre post t w Hp H;
      vm_compute in Hp; injection Hp as <- <-
  | |- wp (unpack2 _) _ _ =>
      apply wp_unpack2;
      let a := fresh "v" in let b := fresh "v" in intros a b ->
  | |- wp (unpack4 _) _ _ =>
      apply wp_unpack4;
      let a := fresh "v" in let b := fresh "v" in
      let c := fresh "v" in let d := fresh "v" in intros a b c d ->
  end; cbv beta iota.

(** Membership in a trace built by successive appends. *)
Ltac in_trace :=
  lazymatch goal with
  | |- In _ (_ ++ _) =>
      apply in_or_app; first [ right; solve [in_trace] | left; in_trace ]
  | |- In _ (_ :: _) => first [ left; reflexivity | right; in_trace ]
  end.

Ltac unfold_cells :=
  unfold run, notebook, workflow, cudf_example, define_parameters,
    generate_and_split, copy_to_host, sk_fit, sk_predict, sk_score,
    cuml_fit, cuml_predict, cuml_score, compare_results, timed, fresh.

Lemma is_loaded_steps x tr : is_loaded x tr = loads x (steps tr).
Proof.
  unfold is_loaded, loads, steps. induction tr as [| e tr IH]; cbn; auto.
  rewrite existsb_app, <- IH.
  destruct e as [y v | y v | o a k r | t]; cbn; try now rewrite ?orb_false_r.
  destruct o; reflexivity.
Qed.

Lemma loads_app x a b : loads x (a ++ b) = loads x a || loads x b.
Proof. apply existsb_app. Qed.

Section Returning.

Context {World : Type}.
Variable rt : runtime World.

(** No run, finished or not, ever reads [y_test]. *)
Lemma y_test_never_loaded n w :
  is_loaded "y_test" (trace (snd (run rt n w))) = false.
Proof.
  destruct (run_steps rt n w) as (rest & Hl & _).
  rewrite is_loaded_steps.
  assert (H : loads "y_test" notebook_steps = false) by reflexivity.
  rewrite Hl, loads_app in H. now apply orb_false_elim in H.
Qed.

End Returning.

Section Requests.

Context {World : Type}.
Variable rt : runtime World.

(** X5. The cuDF example works on one dataframe object throughout: what
    [read_csv] returned is what the two columns are read from, what the new
    column is assigned into and what is grouped; the quotient is taken
    directly on the two columns as read and multiplied by [100]; what the
    assignment returns is not used. *)
Lemma cudf_example_trace w s' :
  cudf_example rt (fresh w) = (Ok tt, s') -> tips_cell_trace s'.
Proof.
  intros H. pattern s'. apply (wp_elim _ _ _ _ _ H). clear H s'.
  unfold cudf_example, fresh. repeat wp_step.
  unfold tips_cell_trace. cbn [trace]. do 11 eexists. reflexivity.
Qed.

(** X3. What the notebook asks of the generator and of the splitter: the
    generator gets the three parameters and nothing else; the splitter gets
    the generated matrix and response, each wrapped by cuDF, a test size of
    [0.2] and the same seed; its four results are bound in order, and [X]
    and [y] end up naming the cuDF objects, not the generated arrays. *)
Lemma generation_and_split_requests n w s' :
  (cudf_example rt ;; define_parameters rt n ;; generate_and_split rt)
    (fresh w) = (Ok tt, s') ->
  generation_requests n s'.
Proof.
  intros H. pattern s'. apply (wp_elim _ _ _ _ _ H). clear H s'.
  unfold cudf_example, define_parameters, generate_and_split, timed, fresh.
  repeat wp_step. unfold generation_requests. cbn [ns trace].
  do 12 eexists.
  repeat match goal with
         | |- lookup _ _ = _ /\ _ => split; [reflexivity |]
         end.
  repeat match goal with |- In _ _ /\ _ => split; [in_trace |] end.
  in_trace.
Qed.

End Requests.

(** * The claims *)

Lemma quiet_nth (l : list event) i e :
  quiet l -> nth_error l i = Some e -> raised e = false.
Proof.
  unfold quiet. rewrite forallb_forall. intros Hq Hn.
  apply nth_error_In in Hn. apply Hq in Hn. now destruct (raised e).
Qed.

Section Claims.

Context {World : Type}.
Variable rt : runtime World.


(** C7. The workflow performs its steps in the stated order: data
    generation, the train/test split, the device-to-host transfer,
    fit/predict/score with scikit-learn, fit/predict/score with cuML, and
    last the two printed scores (after the cuDF example and the imports that
    open the notebook). *)
Theorem steps_in_stated_order (n : Z) (w : World) (s' : state World) :
  run rt n w = (Ok tt, s') ->
  steps (trace s') =
    cudf_example_steps
    ++ define_parameters_steps
    ++ (generate_steps ++ split_steps ++ time_report_steps)
    ++ transfer_steps
    ++ (sk_fit_steps ++ sk_predict_steps ++ sk_score_steps)
    ++ (cuml_fit_steps ++ cuml_predict_steps ++ cuml_score_steps)
    ++ compare_steps.
Proof.
  intros H. rewrite (run_steps_complete rt n w s' H). reflexivity.
Qed.


(** C9. Both R^2 scores are computed by the same function, the [r2_score]
    imported from [cuml.metrics.regression], against the same device-side
    label vector [y_cudf_test]: the scikit-learn predictions [predict_sk]
    are scored against the device-side labels, and the host copy [y_test] is
    never read. *)
Theorem scores_use_one_metric_and_device_labels (n : Z) (w : World)
    (s' : state World) :
  run rt n w = (Ok tt, s') -> scored_by_one_metric_on_device_labels s'.
Proof.
  intros H.
  pose proof (run_steps_complete rt n w s' H) as Hsteps.
  pose proof (y_test_never_loaded rt n w) as Hy. rewrite H in Hy. cbn in Hy.
  revert Hsteps Hy. pattern s'. apply (wp_elim _ _ _ _ _ H). clear H s'.
  unfold_cells. repeat wp_step. intros Hsteps Hy.
  unfold scored_by_one_metric_on_device_labels. cbn [ns trace] in *.
  do 10 eexists.
  repeat match goal with
         | |- lookup _ _ = _ /\ _ => split; [reflexivity |]
         end.
  repeat match goal with |- In _ _ /\ _ => split; [in_trace |] end.
  split; [| exact Hy].
  rewrite Hsteps. reflexivity.
Qed.

End Claims.


Lemma steps_in_stated_order_witness :
  run (stub_rt (2 ^ 19)) (2 ^ 19) 0%N = (Ok tt, stub_final) /\
  steps (trace stub_final) =
    cudf_example_steps
    ++ define_parameters_steps
    ++ (generate_steps ++ split_steps ++ time_report_steps)
    ++ transfer_steps
    ++ (sk_fit_steps ++ sk_predict_steps ++ sk_score_steps)
    ++ (cuml_fit_steps ++ cuml_predict_steps ++ cuml_score_steps)
    ++ compare_steps.
Proof.
  assert (H : run (stub_rt (2 ^ 19)) (2 ^ 19) 0%N = (Ok tt, stub_final))
    by (vm_compute; reflexivity).
  split; [exact H |].
  exact (steps_in_stated_order (stub_rt (2 ^ 19)) (2 ^ 19) 0%N stub_final H).
Defined.

Lemma scores_use_one_metric_and_device_labels_witness :
  run (stub_rt (2 ^ 19)) (2 ^ 19) 0%N = (Ok tt, stub_final) /\
  scored_by_one_metric_on_device_labels stub_final.
Proof.
  assert (H : run (stub_rt (2 ^ 19)) (2 ^ 19) 0%N = (Ok tt, stub_final))
    by (vm_compute; reflexivity).
  split; [exact H |].
  exact (scores_use_one_metric_and_device_labels
           (stub_rt (2 ^ 19)) (2 ^ 19) 0%N stub_final H).
Defined.


Section ClaimsCorrected.

Context {World : Type}.
Variable rt : runtime World.

Lemma rendered_of_call v t (w w' : World) tr :
  str_call rt v t w w' -> incl (str_log v t) tr -> rendered tr v t.
Proof.
  destruct v; cbn; intros Hc Hi; try (apply Hi; left; reflexivity).
  now destruct Hc.
Qed.

(** C4, amended.  The transfer copies and does not move: after it every
    device piece is still bound to the object that was handed to
    [to_pandas], and the cuML fit reads [X_cudf] and [y_cudf] later on.
    Of the four host copies, [X_train] and [y_train] are the arguments of
    the scikit-learn fit and [X_test] of its predict; [y_test] is bound and
    never read. *)
Theorem host_copies_made_and_three_consumed (n : Z) (w : World)
    (s' : state World) :
  run rt n w = (Ok tt, s') -> copied_and_consumed s'.
Proof.
  intros H.
  pose proof (run_steps_complete rt n w s' H) as Hsteps.
  pose proof (y_test_never_loaded rt n w) as Hy. rewrite H in Hy. cbn in Hy.
  revert Hsteps Hy. pattern s'. apply (wp_elim _ _ _ _ _ H). clear H s'.
  unfold_cells. repeat wp_step. intros Hsteps Hy.
  unfold copied_and_consumed. cbn [ns trace] in *.
  do 13 eexists.
  repeat match goal with
         | |- lookup _ _ = _ /\ _ => split; [reflexivity |]
         end.
  repeat match goal with |- In _ _ /\ _ => split; [in_trace |] end.
  split; [| exact Hy].
  exists (cudf_example_steps ++ define_parameters_steps
          ++ generate_steps ++ split_steps ++ time_report_steps),
         (host_steps ++ device_steps ++ compare_steps).
  rewrite Hsteps. repeat split; reflexivity.
Qed.

End ClaimsCorrected.

(** C4, as stated, fails: on the notebook as committed, run to the end, not
    every host copy is read. *)
Lemma y_test_copy_is_not_consumed :
  run (stub_rt (2 ^ 19)) (2 ^ 19) 0%N = (Ok tt, stub_final) /\
  lookup "y_test" (ns stub_final) = Some (VObj 31) /\
  all_twins_consumed (trace stub_final) = false.
Proof. vm_compute. repeat split; reflexivity. Qed.

Lemma host_copies_made_and_three_consumed_witness :
  run (stub_rt (2 ^ 19)) (2 ^ 19) 0%N = (Ok tt, stub_final) /\
  copied_and_consumed stub_final.
Proof.
  assert (H : run (stub_rt (2 ^ 19)) (2 ^ 19) 0%N = (Ok tt, stub_final))
    by (vm_compute; reflexivity).
  split; [exact H |].
  exact (host_copies_made_and_three_consumed
           (stub_rt (2 ^ 19)) (2 ^ 19) 0%N stub_final H).
Defined.

Ltac incl_trace :=
  lazymatch goal with
  | |- incl ?l ?l => apply incl_refl
  | |- incl _ (_ ++ _) =>
      first [ apply incl_appr; solve [incl_trace]
            | apply incl_appl; incl_trace ]
  end.

Section Comparison.

Context {World : Type}.
Variable rt : runtime World.

(** C6, amended.  The comparison step prints two lines, the scikit-learn
    score on the first and the cuML score on the second, each in its
    documented format. *)
Theorem comparison_prints_one_score_per_line (n : Z) (w : World)
    (s' : state World) :
  run rt n w = (Ok tt, s') -> prints_two_score_lines s'.
Proof.
  intros H. pattern s'. apply (wp_elim _ _ _ _ _ H). clear H s'.
  unfold_cells. repeat wp_step.
  unfold prints_two_score_lines. cbn [ns trace].
  cbn [str_call] in *.
  repeat match goal with
         | H : _ = _ /\ _ = _ |- _ => destruct H; subst
         end.
  cbn [str_log].
  do 4 eexists.
  match goal with
  | |- exists before, _ /\ _ /\ _ /\ _ /\
         stdout ((((((?P ++ _) ++ _) ++ _) ++ _) ++ _) ++ _) = _ =>
      exists (stdout P)
  end.
  split; [reflexivity |]. split; [reflexivity |].
  split; [eapply rendered_of_call; [eassumption | incl_trace] |].
  split; [eapply rendered_of_call; [eassumption | incl_trace] |].
  match goal with
  | |- stdout ((((((?P ++ _) ++ _) ++ _) ++ _) ++ _) ++ _) = _ =>
      generalize P; intros P0
  end.
  rewrite !stdout_app, !stdout_str_log. cbn [stdout app].
  rewrite ?string_app_nil_r, ?string_app_assoc.
  reflexivity.
Qed.

End Comparison.

(** C6, as stated, fails: the two scores are printed on two lines, and no
    line of the output shows both. *)
Lemma no_line_shows_both_scores :
  run (stub_rt (2 ^ 19)) (2 ^ 19) 0%N = (Ok tt, stub_final) /\
  lookup "r2_score_sk" (ns stub_final) = Some (VObj 35) /\
  lookup "r2_score_cuml" (ns stub_final) = Some (VObj 39) /\
  lines (stdout (trace stub_final)) =
    ["<object 9>";
     "Wall time: 1 s"; "Wall time: 1 s"; "Wall time: 1 s"; "Wall time: 1 s";
     "Wall time: 1 s"; "Wall time: 1 s"; "Wall time: 1 s";
     "R^2 score (SKL):  <object 35>";
     "R^2 score (cuML): <object 39>"] /\
  line_with_both (obj_repr 35) (obj_repr 39) (stdout (trace stub_final))
  = false.
Proof. vm_compute. repeat split; reflexivity. Qed.

Lemma comparison_prints_one_score_per_line_witness :
  run (stub_rt (2 ^ 19)) (2 ^ 19) 0%N = (Ok tt, stub_final) /\
  prints_two_score_lines stub_final.
Proof.
  assert (H : run (stub_rt (2 ^ 19)) (2 ^ 19) 0%N = (Ok tt, stub_final))
    by (vm_compute; reflexivity).
  split; [exact H |].
  exact (comparison_prints_one_score_per_line
           (stub_rt (2 ^ 19)) (2 ^ 19) 0%N stub_final H).
Defined.

(** ** The [tip_percentage] column *)

Lemma division_by_zero_is_no_number (t b : spec_float) :
  is_zero b = true -> is_number (tip_percentage_row t b) = false.
Proof.
  destruct b as [sb | sb | | sb mb eb]; try discriminate. intros _.
  destruct t as [st | st | | st mt et]; reflexivity.
Qed.

Lemma tip_percentage_nth (tip total_bill : list spec_float) i r :
  nth_error (tip_percentage tip total_bill) i = Some r ->
  exists t b,
    nth_error tip i = Some t /\ nth_error total_bill i = Some b /\
    r = tip_percentage_row t b.
Proof.
  unfold tip_percentage. revert total_bill i.
  induction tip as [| t tip IH]; intros [| b bill] [| i] H;
    cbn in H; try discriminate H.
  - injection H as <-. exists t, b. auto.
  - apply IH in H. exact H.
Qed.

(** C10. The [tip_percentage] column is the row-by-row quotient
    [tip / total_bill * 100], computed with no test for a zero divisor: the
    value of a row is a number only if the row's [total_bill] is not
    zero. *)
Theorem tip_percentage_number_needs_nonzero_bill
    (tip total_bill : list spec_float) (i : nat) (r : spec_float) :
  nth_error (tip_percentage tip total_bill) i = Some r ->
  is_number r = true ->
  exists t b,
    nth_error tip i = Some t /\
    nth_error total_bill i = Some b /\
    r = f64_mul (f64_div t b) float_100 /\
    is_zero b = false.
Proof.
  intros Hn Hr. apply tip_percentage_nth in Hn.
  destruct Hn as (t & b & Ht & Hb & ->). exists t, b.
  repeat split; auto.
  destruct (is_zero b) eqn:Hz; [| reflexivity].
  rewrite (division_by_zero_is_no_number t b Hz) in Hr. discriminate Hr.
Qed.

(** The first two rows of a bill table, [total_bill = 16.99, 0.0] and
    [tip = 1.01, 1.01]: the first percentage is a number, the second is
    [+inf]. *)
Lemma tip_percentage_number_needs_nonzero_bill_witness :
  nth_error
    (tip_percentage
       [S754_finite false 4548635623644201 (-52);
        S754_finite false 4548635623644201 (-52)]
       [S754_finite false 4782259854314045 (-48); S754_zero false]) 0
  = Some (S754_finite false 6693107156627724 (-50)) /\
  is_number (S754_finite false 6693107156627724 (-50)) = true /\
  exists t b,
    nth_error [S754_finite false 4548635623644201 (-52);
               S754_finite false 4548635623644201 (-52)] 0 = Some t /\
    nth_error [S754_finite false 4782259854314045 (-48); S754_zero false] 0
    = Some b /\
    S754_finite false 6693107156627724 (-50) = f64_mul (f64_div t b) float_100 /\
    is_zero b = false.
Proof.
  assert (H : nth_error
    (tip_percentage
       [S754_finite false 4548635623644201 (-52);
        S754_finite false 4548635623644201 (-52)]
       [S754_finite false 4782259854314045 (-48); S754_zero false]) 0
  = Some (S754_finite false 6693107156627724 (-50)))
    by (vm_compute; reflexivity).
  split; [exact H |]. split; [reflexivity |].
  exact (tip_percentage_number_needs_nonzero_bill _ _ 0 _ H eq_refl).
Defined.

(** * Further properties of the notebook *)

(** ** Exceptions of a run *)

Section WPE.

Context {World : Type}.
Variable rt : runtime World.
Variable E : exn -> Prop.
Hypothesis benign_E : forall e, benign e -> E e.

Lemma wpe_ret {A} (a : A) (Q : A -> state World -> Prop) s :
  Q a s -> wpe (ret a) Q E s.
Proof. auto. Qed.

Lemma wpe_bind {A B} (m : M World A) (k : A -> M World B) Q s :
  wpe m (fun a s1 => wpe (k a) Q E s1) E s -> wpe (bind m k) Q E s.
Proof. unfold wpe, bind. destruct (m s) as [[a | e] s1]; auto. Qed.

Lemma wpe_load x v N (W : World) T Q :
  lookup x N = Some v ->
  Q v (mkState N W (T ++ [ELoad x v])) ->
  wpe (load x) Q E (mkState N W T).
Proof. unfold wpe, load, log. cbn. now intros ->. Qed.

Lemma wpe_load_unbound x N (W : World) T Q :
  lookup x N = None -> E (NameError x) ->
  wpe (load x) Q E (mkState N W T).
Proof. unfold wpe, load. cbn. now intros ->. Qed.

Lemma wpe_store x v N (W : World) T Q :
  Q tt (mkState ((x, v) :: N) W (T ++ [EStore x v])) ->
  wpe (store x v) Q E (mkState N W T).
Proof. auto. Qed.

Lemma wpe_invoke o args kw N W T Q :
  (forall v w', rt o args kw W = (inl v, w') ->
     Q v (mkState N w' (T ++ [EOp o args kw (inl v)]))) ->
  wpe (invoke rt o args kw) Q E (mkState N W T).
Proof.
  unfold wpe, invoke. cbn. intros H.
  destruct (rt o args kw W) as [[v | x] w']; auto.
  apply benign_E. exact I.
Qed.

(** The built-ins raise only benign exceptions. *)
Lemma py_str_benign v s e s' :
  py_str rt v s = (Raise e, s') -> benign e.
Proof.
  destruct v; cbn [py_str]; try discriminate;
    unfold bind, invoke;
    destruct (rt OStr _ [] (world s)) as [[r | x] w']; cbn;
    try (intros H; injection H as <- _; exact I);
    destruct r; cbn; intros H; try discriminate H;
    injection H as <- _; exact I.
Qed.

Lemma wpe_of_wp {A} (m : M World A) Q s :
  (forall e s', m s = (Raise e, s') -> benign e) ->
  wp m Q s -> wpe m Q E s.
Proof.
  unfold wp, wpe. intros Hb. destruct (m s) as [[a | e] s']; auto.
  intros _. apply benign_E. eapply Hb. reflexivity.
Qed.

Lemma print_benign v s e s' :
  print rt v s = (Raise e, s') -> benign e.
Proof.
  unfold print, bind.
  destruct (py_str rt v s) as [[t | e0] s1] eqn:Hs; cbn.
  - discriminate.
  - intros H. injection H as <- _. eapply py_str_benign. exact Hs.
Qed.

Lemma percent_benign fmt v s e s' :
  percent rt fmt v s = (Raise e, s') -> benign e.
Proof.
  unfold percent. destruct (split_percent_s fmt) as [[pre post] |].
  2: { intros H. injection H as <- _. exact I. }
  assert (G : forall a,
    (t <- py_str rt a ;; ret (VStr (pre ++ t ++ post))) s = (Raise e, s') ->
    benign e).
  { intros a. unfold bind.
    destruct (py_str rt a s) as [[t | e0] s1] eqn:Hs; cbn.
    - discriminate.
    - intros H. injection H as <- _. eapply py_str_benign. exact Hs. }
  destruct v; try apply G.
  destruct vs as [| a [| b vs]]; try apply G;
    intros H; injection H as <- _; exact I.
Qed.

Lemma unpack2_benign v (s : state World) e s' :
  unpack2 v s = (Raise e, s') -> benign e.
Proof.
  destruct v; try (intros H; injection H as <- _; exact I).
  destruct vs as [| x [| y [| z vs]]];
    try (intros H; injection H as <- _; exact I).
  discriminate.
Qed.

Lemma unpack4_benign v (s : state World) e s' :
  unpack4 v s = (Raise e, s') -> benign e.
Proof.
  destruct v; try (intros H; injection H as <- _; exact I).
  destruct vs as [| x [| y [| z [| u [| q vs]]]]];
    try (intros H; injection H as <- _; exact I).
  discriminate.
Qed.

Lemma wpe_print v N W T Q :
  (forall t w', str_call rt v t W w' ->
     Q tt (mkState N w' (T ++ str_log v t ++ [EPrint (t ++ nl)]))) ->
  wpe (print rt v) Q E (mkState N W T).
Proof.
  intros H. apply wpe_of_wp; [apply print_benign | now apply wp_print].
Qed.

Lemma wpe_percent fmt v N W T Q :
  (forall pre post t w',
     split_percent_s fmt = Some (pre, post) ->
     str_call rt (fmt_arg v) t W w' ->
     Q (VStr (pre ++ t ++ post))
       (mkState N w' (T ++ str_log (fmt_arg v) t))) ->
  wpe (percent rt fmt v) Q E (mkState N W T).
Proof.
  intros H. apply wpe_of_wp; [apply percent_benign | now apply wp_percent].
Qed.

Lemma wpe_unpack2 v Q (s : state World) :
  (forall a b, v = VTuple [a; b] -> Q (a, b) s) -> wpe (unpack2 v) Q E s.
Proof.
  intros H. apply wpe_of_wp; [apply unpack2_benign | now apply wp_unpack2].
Qed.

Lemma wpe_unpack4 v Q (s : state World) :
  (forall a b c d, v = VTuple [a; b; c; d] -> Q (a, b, c, d) s) ->
  wpe (unpack4 v) Q E s.
Proof.
  intros H. apply wpe_of_wp; [apply unpack4_benign | now apply wp_unpack4].
Qed.

End WPE.

Ltac wpe_step HE :=
  lazymatch goal with
  | |- wpe (bind _ _) _ _ _ => apply wpe_bind
  | |- wpe (ret _) _ _ _ => apply wpe_ret
  | |- wpe (load _) _ _ _ =>
      first [ eapply wpe_load; [reflexivity |]
            | apply wpe_load_unbound; [reflexivity | ] ]
  | |- wpe (store _ _) _ _ _ => apply wpe_store
  | |- wpe (invoke _ _ _ _) _ _ _ =>
      apply (wpe_invoke _ _ HE);
      let v := fresh "v" in let w := fresh "w" in intros v w _
  | |- wpe (print _ _) _ _ _ =>
      apply (wpe_print _ _ HE);
      let t := fresh "txt" in let w := fresh "w" in intros t w _
  | |- wpe (percent _ _ _) _ _ _ =>
      apply (wpe_percent _ _ HE);
      let pre := fresh "pre" in let post := fresh "post" in
      let t := fresh "txt" in let w := fresh "w" in
      intros pre post t w _ _
  | |- wpe (unpack2 _) _ _ _ =>
      apply (wpe_unpack2 _ HE);
      let a := fresh "v" in let b := fresh "v" in intros a b ->
  | |- wpe (unpack4 _) _ _ _ =>
      apply (wpe_unpack4 _ HE);
      let a := fresh "v" in let b := fresh "v" in
      let c := fresh "v" in let d := fresh "v" in intros a b c d ->
  end; cbv beta iota.

Section Exceptions.

Context {World : Type}.
Variable rt : runtime World.


Lemma benign_missing_cudf e : benign e -> missing_cudf e.
Proof. destruct e; cbn; tauto. Qed.


End Exceptions.

(** On the stand-in runtime the workflow alone stops at the first use of
    [cudf], after the data was generated. *)
Lemma workflow_alone_on_stub :
  fst (workflow (stub_rt (2 ^ 19)) (2 ^ 19) (fresh 0%N))
  = Raise (NameError "cudf") /\
  lookup "X" (ns (snd (workflow (stub_rt (2 ^ 19)) (2 ^ 19) (fresh 0%N))))
  = Some (VObj 9).
Proof. vm_compute. split; reflexivity. Qed.

(** ** The two models and the one split *)

Section OneSplit.

Context {World : Type}.
Variable rt : runtime World.

(** X4. Both models are trained and tested on the same split, and fitted in
    place: the cuML model gets the first and third piece of the splitter's
    answer for [fit] and the second for [predict], the scikit-learn model
    the host copies of exactly these; both predictions are scored against
    the fourth piece; [predict] is called on the object the constructor
    returned, not on what [fit] returned. *)
Theorem models_share_the_split (n : Z) (w : World) (s' : state World) :
  run rt n w = (Ok tt, s') -> same_split_in_place s'.
Proof.
  intros H. pattern s'. apply (wp_elim _ _ _ _ _ H). clear H s'.
  unfold_cells. repeat wp_step.
  unfold same_split_in_place. cbn [ns trace].
  do 21 eexists.
  repeat match goal with
         | |- lookup _ _ = _ /\ _ => split; [reflexivity |]
         end.
  repeat match goal with |- In _ _ /\ _ => split; [in_trace |] end.
  in_trace.
Qed.

End OneSplit.

Lemma models_share_the_split_witness :
  run (stub_rt (2 ^ 19)) (2 ^ 19) 0%N = (Ok tt, stub_final) /\
  same_split_in_place stub_final.
Proof.
  assert (H : run (stub_rt (2 ^ 19)) (2 ^ 19) 0%N = (Ok tt, stub_final))
    by (vm_compute; reflexivity).
  split; [exact H |].
  exact (models_share_the_split (stub_rt (2 ^ 19)) (2 ^ 19) 0%N stub_final H).
Defined.

Lemma generation_and_split_requests_witness :
  (cudf_example (stub_rt (2 ^ 19)) ;;
   define_parameters (stub_rt (2 ^ 19)) (2 ^ 19) ;;
   generate_and_split (stub_rt (2 ^ 19))) (fresh 0%N)
  = (Ok tt,
     snd ((cudf_example (stub_rt (2 ^ 19)) ;;
           define_parameters (stub_rt (2 ^ 19)) (2 ^ 19) ;;
           generate_and_split (stub_rt (2 ^ 19))) (fresh 0%N))) /\
  generation_requests (2 ^ 19)
    (snd ((cudf_example (stub_rt (2 ^ 19)) ;;
           define_parameters (stub_rt (2 ^ 19)) (2 ^ 19) ;;
           generate_and_split (stub_rt (2 ^ 19))) (fresh 0%N))).
Proof.
  assert (H : (cudf_example (stub_rt (2 ^ 19)) ;;
               define_parameters (stub_rt (2 ^ 19)) (2 ^ 19) ;;
               generate_and_split (stub_rt (2 ^ 19))) (fresh 0%N)
              = (Ok tt,
                 snd ((cudf_example (stub_rt (2 ^ 19)) ;;
                       define_parameters (stub_rt (2 ^ 19)) (2 ^ 19) ;;
                       generate_and_split (stub_rt (2 ^ 19))) (fresh 0%N))))
    by (vm_compute; reflexivity).
  split; [exact H |].
  exact (generation_and_split_requests (stub_rt (2 ^ 19)) (2 ^ 19) 0%N _ H).
Defined.

Lemma cudf_example_trace_witness :
  cudf_example (stub_rt (2 ^ 19)) (fresh 0%N)
  = (Ok tt, snd (cudf_example (stub_rt (2 ^ 19)) (fresh 0%N))) /\
  tips_cell_trace (snd (cudf_example (stub_rt (2 ^ 19)) (fresh 0%N))).
Proof.
  assert (H : cudf_example (stub_rt (2 ^ 19)) (fresh 0%N)
              = (Ok tt, snd (cudf_example (stub_rt (2 ^ 19)) (fresh 0%N))))
    by (vm_compute; reflexivity).
  split; [exact H |].
  exact (cudf_example_trace (stub_rt (2 ^ 19)) 0%N _ H).
Defined.

(** ** The rounding of binary64 results keeps the sign and makes no NaN *)

Lemma iter_pos_invariant {A : Type} (P : A -> Prop) (f : A -> A) :
  (forall x, P x -> P (f x)) ->
  forall p x, P x -> P (iter_pos f p x).
Proof.
  intros Hf. induction p as [p IH | p IH |]; intros x Hx; cbn; auto.
Qed.

Lemma shr_1_nonneg mrs : (0 <= shr_m mrs)%Z -> (0 <= shr_m (shr_1 mrs))%Z.
Proof.
  destruct mrs as [m r s]. destruct m as [| p | p]; cbn; intros H;
    try lia; destruct p; cbn; lia.
Qed.

Lemma shr_nonneg mrs e n :
  (0 <= shr_m mrs)%Z -> (0 <= shr_m (fst (shr mrs e n)))%Z.
Proof.
  intros H. unfold shr. destruct n as [| p | p]; cbn; auto.
  apply (iter_pos_invariant (fun r => (0 <= shr_m r)%Z)); auto.
  apply shr_1_nonneg.
Qed.

Lemma shr_fexp_nonneg prec emax m e l :
  (0 <= m)%Z -> (0 <= shr_m (fst (shr_fexp prec emax m e l)))%Z.
Proof.
  intros H. unfold shr_fexp. apply shr_nonneg.
  destruct l as [| []]; exact H.
Qed.

Lemma round_nearest_even_nonneg m l :
  (0 <= m)%Z -> (0 <= round_nearest_even m l)%Z.
Proof.
  intros H. unfold round_nearest_even.
  destruct l as [| []]; try destruct (Z.even m); lia.
Qed.

Lemma binary_round_aux_sign prec emax sx mx ex lx :
  (0 <= mx)%Z ->
  is_nan (binary_round_aux prec emax sx mx ex lx) = false /\
  sign_bit (binary_round_aux prec emax sx mx ex lx) = sx.
Proof.
  intros H. unfold binary_round_aux.
  pose proof (shr_fexp_nonneg prec emax mx ex lx H) as H1.
  destruct (shr_fexp prec emax mx ex lx) as [mrs' e']. cbn in H1.
  pose proof (shr_fexp_nonneg prec emax
                (round_nearest_even (shr_m mrs') (loc_of_shr_record mrs'))
                e' loc_Exact (round_nearest_even_nonneg _ _ H1)) as H2.
  destruct (shr_fexp prec emax _ e' loc_Exact) as [mrs'' e'']. cbn in H2.
  destruct (shr_m mrs'') as [| m | m]; cbn; auto; try lia.
  destruct (Z.leb e'' (emax - prec)); cbn; auto.
Qed.

Lemma SFdiv_core_binary_nonneg prec emax mx ex my ey :
  (0 <= fst (fst (SFdiv_core_binary prec emax (Zpos mx) ex (Zpos my) ey)))%Z.
Proof.
  unfold SFdiv_core_binary.
  set (s := (ex - ey - _)%Z).
  set (m' := match s with
             | Zpos _ => Z.shiftl (Zpos mx) s
             | Z0 => Zpos mx
             | Zneg _ => Z0
             end).
  assert (Hm : (0 <= m')%Z).
  { unfold m'. destruct s; try lia. apply Z.shiftl_nonneg. lia. }
  pose proof (Z.div_pos m' (Zpos my) Hm ltac:(lia)) as Hq.
  unfold Z.div in Hq. destruct (Z.div_eucl m' (Zpos my)) as [q r].
  exact Hq.
Qed.

Lemma f64_div_nan (t b : spec_float) :
  is_nan (f64_div t b)
  = is_nan t || is_nan b || (is_inf t && is_inf b) || (is_zero t && is_zero b).
Proof.
  destruct t as [st | st | | st mt et], b as [sb | sb | | sb mb eb];
    try reflexivity.
  unfold f64_div, SFdiv.
  pose proof (SFdiv_core_binary_nonneg 53 1024 mt et mb eb) as H.
  destruct (SFdiv_core_binary 53 1024 (Zpos mt) et (Zpos mb) eb)
    as [[mz ez] lz]. cbn in H.
  apply (binary_round_aux_sign 53 1024 (xorb st sb) mz ez lz H).
Qed.

Lemma f64_div_sign (t b : spec_float) :
  is_nan (f64_div t b) = false ->
  sign_bit (f64_div t b) = xorb (sign_bit t) (sign_bit b).
Proof.
  destruct t as [st | st | | st mt et], b as [sb | sb | | sb mb eb];
    try reflexivity; try discriminate.
  intros _. unfold f64_div, SFdiv.
  pose proof (SFdiv_core_binary_nonneg 53 1024 mt et mb eb) as H.
  destruct (SFdiv_core_binary 53 1024 (Zpos mt) et (Zpos mb) eb)
    as [[mz ez] lz]. cbn in H.
  apply (binary_round_aux_sign 53 1024 (xorb st sb) mz ez lz H).
Qed.

Lemma f64_mul_100 (q : spec_float) :
  is_nan (f64_mul q float_100) = is_nan q /\
  sign_bit (f64_mul q float_100) = sign_bit q.
Proof.
  destruct q as [s | s | | s m e];
    try (cbn; rewrite ?xorb_false_r; split; reflexivity).
  unfold f64_mul, float_100, SFmul.
  destruct (binary_round_aux_sign 53 1024 (xorb s false)
              (Zpos (m * 7036874417766400)) (e + -46) loc_Exact
              ltac:(lia)) as [H1 H2].
  rewrite H1, H2, xorb_false_r. split; reflexivity.
Qed.

(** X6. A zero [total_bill] raises nothing: the row becomes an infinity
    with the sign of the tip (exclusive-or the sign of the zero), or NaN
    when the tip is itself zero or NaN. *)
Theorem zero_bill_gives_infinity_or_nan (t b : spec_float) :
  is_zero b = true ->
  tip_percentage_row t b =
    if is_nan t || is_zero t then S754_nan
    else S754_infinity (xorb (sign_bit t) (sign_bit b)).
Proof.
  destruct b as [sb | sb | | sb mb eb]; try discriminate. intros _.
  destruct t as [st | st | | st mt et]; cbn; rewrite ?xorb_false_r;
    reflexivity.
Qed.

(** X7. The rows that come out as NaN are exactly those with a NaN input,
    with both inputs infinite, or with both inputs zero: rounding and
    overflow never make one. *)
Theorem tip_percentage_nan_rows (t b : spec_float) :
  is_nan (tip_percentage_row t b)
  = is_nan t || is_nan b || (is_inf t && is_inf b) || (is_zero t && is_zero b).
Proof.
  unfold tip_percentage_row.
  rewrite (proj1 (f64_mul_100 _)). apply f64_div_nan.
Qed.

(** X8. Whenever the row is not NaN its sign is the exclusive-or of the
    signs of [tip] and [total_bill]: a tip and a bill of the same sign
    never give a negative percentage, whatever the rounding. *)
Theorem tip_percentage_sign (t b : spec_float) :
  is_nan (tip_percentage_row t b) = false ->
  sign_bit (tip_percentage_row t b) = xorb (sign_bit t) (sign_bit b).
Proof.
  unfold tip_percentage_row. intros H.
  rewrite (proj1 (f64_mul_100 _)) in H.
  rewrite (proj2 (f64_mul_100 _)). now apply f64_div_sign.
Qed.

Lemma zero_bill_gives_infinity_or_nan_witness :
  is_zero (S754_zero false) = true /\
  tip_percentage_row (S754_finite false 4548635623644201 (-52))
    (S754_zero false)
  = S754_infinity false.
Proof.
  split; [reflexivity |].
  exact (zero_bill_gives_infinity_or_nan
           (S754_finite false 4548635623644201 (-52)) (S754_zero false)
           eq_refl).
Defined.

Lemma tip_percentage_sign_witness :
  is_nan (tip_percentage_row (S754_finite true 4548635623644201 (-52))
            (S754_finite false 4782259854314045 (-48))) = false /\
  sign_bit (tip_percentage_row (S754_finite true 4548635623644201 (-52))
              (S754_finite false 4782259854314045 (-48))) = true.
Proof.
  assert (H : is_nan (tip_percentage_row
                        (S754_finite true 4548635623644201 (-52))
                        (S754_finite false 4782259854314045 (-48))) = false)
    by (vm_compute; reflexivity).
  split; [exact H |].
  exact (tip_percentage_sign _ _ H).
Defined.

(** ** Names bound and never read *)

Lemma is_stored_names x tr :
  is_stored x tr = true -> In x (stored_names (steps tr)).
Proof.
  unfold is_stored, steps. induction tr as [| e tr IH]; cbn; [discriminate |].
  destruct e as [y v | y v | o a k r | t]; cbn; auto.
  - destruct (String.eqb_spec x y) as [-> | _]; cbn; auto.
  - intros H. apply IH in H. destruct o; cbn; auto.
Qed.

Section DeadNames.

Context {World : Type}.
Variable rt : runtime World.

(** X9. [y_test] is the only dead binding: in a run that returns, every
    other name the notebook binds (imports, parameters, data, models,
    predictions, scores) is read at least once. *)
Theorem only_y_test_is_never_read (n : Z) (w : World) (s' : state World)
    (x : string) :
  run rt n w = (Ok tt, s') ->
  is_stored x (trace s') = true ->
  is_loaded x (trace s') = false ->
  x = "y_test".
Proof.
  intros H Hs Hl. apply is_stored_names in Hs.
  rewrite is_loaded_steps in Hl.
  rewrite (run_steps_complete rt n w s' H) in Hs, Hl.
  vm_compute in Hs.
  repeat (destruct Hs as [<- | Hs];
          [first [reflexivity | vm_compute in Hl; discriminate Hl] |]).
  contradiction.
Qed.

End DeadNames.

Lemma only_y_test_is_never_read_witness :
  run (stub_rt (2 ^ 19)) (2 ^ 19) 0%N = (Ok tt, stub_final) /\
  is_stored "y_test" (trace stub_final) = true /\
  is_loaded "y_test" (trace stub_final) = false /\
  "y_test" = "y_test".
Proof.
  assert (H : run (stub_rt (2 ^ 19)) (2 ^ 19) 0%N = (Ok tt, stub_final))
    by (vm_compute; reflexivity).
  assert (Hs : is_stored "y_test" (trace stub_final) = true)
    by (vm_compute; reflexivity).
  assert (Hl : is_loaded "y_test" (trace stub_final) = false)
    by (vm_compute; reflexivity).
  split; [exact H |]. split; [exact Hs |]. split; [exact Hl |].
  exact (only_y_test_is_never_read (stub_rt (2 ^ 19)) (2 ^ 19) 0%N
           stub_final "y_test" H Hs Hl).
Defined.
